(** * steam-mcp-server: the long-guide retrieval path of [fetch_steam_guide]

    A shallow embedding of [src/steam_mcp_server/server.py], lines 220-303:
    the tool that fetches a Steam Community guide, returns it whole when it
    is short, and otherwise runs a nearest-neighbour search over its
    sections.

    Python strings are [string]s (a character is an [ascii]; [len] counts
    characters).  A float32 distance is the rational it denotes, so NaN and
    the infinities are not values of the model, and the rounding of the
    float32 arithmetic inside the embedding model and the index is not
    modelled: distances are exact.  The external collaborators (the HTTP
    fetch and HTML parse, the sentence-embedding model, the FAISS flat index)
    are given as a [world], and every invocation of the embedding model
    or of the index is recorded in a trace of [event]s, which is the call
    count instrumentation. *)

From Stdlib Require Import String Ascii List ZArith QArith Qround Qabs.
From Stdlib Require Import Lia Lqa Bool DecimalString DecimalPos DecimalN.
From Stdlib Require Import Sorted Permutation.
Import ListNotations.

Close Scope Q_scope.
Open Scope string_scope.
Open Scope Z_scope.

(** ** Python values used by the tool *)

Module Py.

(** The newline character of the Python literals ["\n"]. *)
Definition nl : string := String "010"%char "".

(** [len(s)] for a string. *)
Definition len (s : string) : Z := Z.of_nat (String.length s).

(** [sep.join(parts)]. *)
Definition join (sep : string) (parts : list string) : string :=
  String.concat sep parts.

(** The result of evaluating an expression: a value, or a raised exception
    carrying the text that [str(e)] gives. *)
Inductive outcome (A : Type) : Type :=
| Ok (a : A)
| Raised (e : string).
Arguments Ok {A} a.
Arguments Raised {A} e.

(** [l[i]] on a Python list: a negative index counts from the end, and an
    index outside [-len(l) .. len(l)-1] raises IndexError. *)
Definition getitem {A : Type} (l : list A) (i : Z) : outcome A :=
  let n := Z.of_nat (List.length l) in
  let j := if i <? 0 then n + i else i in
  if (0 <=? j) && (j <? n) then
    match nth_error l (Z.to_nat j) with
    | Some a => Ok a
    | None => Raised "list index out of range"
    end
  else Raised "list index out of range".

(** The integer nearest to [q], ties going to the even neighbour: the
    rounding of Python's float formatting, which is exact on the value of
    the float. *)
Definition round_half_even (q : Q) : Z :=
  let n := Qfloor q in
  match Qcompare (q - inject_Z n) (1 # 2) with
  | Lt => n
  | Gt => n + 1
  | Eq => if Z.even n then n else n + 1
  end.

(** The character of a decimal digit. *)
Definition digit (d : Z) : ascii := ascii_of_nat (48 + Z.to_nat d).

(** The decimal numeral of a natural number, ["0"] for zero. *)
Definition decimal (z : Z) : string :=
  NilZero.string_of_uint (N.to_uint (Z.to_N z)).

(** The number of hundredths printed by [f"{x:.2f}"]. *)
Definition hundredths (q : Q) : Z := round_half_even (Qabs q * 100).

(** [f"{x:.2f}"]: sign, integer part, a point and two decimals. *)
Definition fmt2 (q : Q) : string :=
  let c := hundredths q in
  (match Qcompare q 0 with Lt => "-" | _ => "" end)
    ++ decimal (c / 100) ++ "."
    ++ String (digit ((c / 10) mod 10)) (String (digit (c mod 10)) "").

End Py.

Import Py.

(** ** Effects: a trace of external calls, and exceptions *)

(** A float32 vector, as the rationals its components denote. *)
Definition vec : Type := list Q.

Inductive event : Type :=
| EvEncode (texts : list string)      (* _embedding_model.encode(texts) *)
| EvIndexFlatL2 (dim : nat)           (* faiss.IndexFlatL2(dim) *)
| EvIndexAdd (count : nat)            (* index.add(vectors) *)
| EvIndexSearch (k : nat)             (* index.search(q, k) *)
| EvStderr (line : string).           (* print(..., file=sys.stderr) *)

Definition trace : Type := list event.

(** A computation that may raise and that appends to the trace. *)
Definition M (A : Type) : Type := trace -> outcome A * trace.

Definition ret {A : Type} (a : A) : M A := fun tr => (Ok a, tr).

Definition raise {A : Type} (e : string) : M A := fun tr => (Raised e, tr).

Definition bind {A B : Type} (m : M A) (k : A -> M B) : M B :=
  fun tr =>
    match m tr with
    | (Ok a, tr') => k a tr'
    | (Raised e, tr') => (Raised e, tr')
    end.

Definition emit (ev : event) : M unit := fun tr => (Ok tt, (tr ++ [ev])%list).

Definition lift {A : Type} (o : outcome A) : M A := fun tr => (o, tr).

Declare Scope py_scope.
Delimit Scope py_scope with py.
Notation "x <- m ;; k" := (bind m (fun x => k))
  (at level 100, m at next level, right associativity) : py_scope.
Notation "m ;;; k" := (bind m (fun _ => k))
  (at level 100, right associativity) : py_scope.
Open Scope py_scope.

(** [for x in xs: out.append(f(x))], stopping at the first exception. *)
Fixpoint for_each {A B : Type} (f : A -> M B) (xs : list A) : M (list B) :=
  match xs with
  | [] => ret []
  | x :: rest => y <- f x ;; ys <- for_each f rest ;; ret (y :: ys)
  end.

(** ** The FAISS flat index

    [faiss] is a third-party library; this is its [IndexFlatL2] as the tool
    uses it: exhaustive search by squared Euclidean distance.  A search for
    [k] neighbours fills exactly [k] result slots, nearest first, and [k] is
    not clamped to the number of stored vectors: a vector enters the result
    only if its distance is below [FLT_MAX], and a slot that no vector fills
    keeps the label [-1] and the distance [FLT_MAX].  The library does not
    document the order among equal distances; here the smaller label is
    first (the comparison [cmp2] of its result heap). *)

Module Faiss.

(** The largest finite float32. *)
Definition FLT_MAX : Q := inject_Z (2 ^ 128 - 2 ^ 104).

(** Squared Euclidean distance, computed exactly.  It is the float32 result
    of the library whenever every intermediate value is a float32, as for
    the small integers of the concrete vectors of this file. *)
Definition fvec_L2sqr (x y : vec) : Q :=
  fold_left (fun acc ab => (acc + (fst ab - snd ab) * (fst ab - snd ab))%Q)
            (combine x y) 0%Q.

Record IndexFlatL2 : Type := { d : nat; xb : list vec }.

Definition new (dim : nat) : IndexFlatL2 := {| d := dim; xb := [] |}.

Definition ntotal (index : IndexFlatL2) : nat := List.length (xb index).

Definition add (index : IndexFlatL2) (xs : list vec) : IndexFlatL2 :=
  {| d := d index; xb := (xb index ++ xs)%list |}.

(** One result slot: a distance and a label. *)
Definition hit : Type := (Q * Z)%type.

(** [cmp2]: smaller distance first, then smaller label. *)
Definition cmp2 (a b : hit) : bool :=
  match Qcompare (fst a) (fst b) with
  | Lt => true
  | Eq => snd a <? snd b
  | Gt => false
  end.

Fixpoint insert (h : hit) (l : list hit) : list hit :=
  match l with
  | [] => [h]
  | x :: r => if cmp2 h x then h :: x :: r else x :: insert h r
  end.

Fixpoint sort (l : list hit) : list hit :=
  match l with
  | [] => []
  | h :: r => insert h (sort r)
  end.

(** The vectors from label [j] on, each with its distance to [q]; those at
    [FLT_MAX] or beyond never enter the result. *)
Fixpoint candidates (j : Z) (q : vec) (ys : list vec) : list hit :=
  match ys with
  | [] => []
  | y :: r =>
      let dis := fvec_L2sqr q y in
      match Qcompare dis FLT_MAX with
      | Lt => (dis, j) :: candidates (j + 1) q r
      | _ => candidates (j + 1) q r
      end
  end.

(** The slots that vectors fill. *)
Definition knn (index : IndexFlatL2) (q : vec) (k : nat) : list hit :=
  firstn k (sort (candidates 0 q (xb index))).

(** [index.search(q, k)] for one query: the pairs of [distances[0]] and
    [indices[0]]. *)
Definition search (index : IndexFlatL2) (q : vec) (k : nat) : list hit :=
  let found := knn index q k in
  (found ++ repeat (FLT_MAX, -1) (k - List.length found))%list.

End Faiss.

(** ** The tool *)

Module Guide.

(** A [div.subSection.detailBox] of the guide page, with the text of its
    title element and of its body element when it has them. *)
Record box : Type := { title : option string; body : option string }.

(** What a call finds outside itself. *)
Record world : Type := {
  (* [faiss is not None]: the import at the top of the module succeeded *)
  faiss : bool;
  (* the GET of the guide page, [raise_for_status], and the parse: an
     exception, or the boxes of the [div.guide.subSections] container,
     [None] when the page has no such container *)
  get_guide : string -> outcome (option (list box));
  (* the sentence embedding of one text *)
  embed : string -> vec;
  (* the exception that [_embedding_model.encode] raises on a batch, if any *)
  encode_error : list string -> option string
}.

Definition threshold_chars : Z := 20000.
Definition top_k : nat := 5.

(** Lines 267-268: the title and a newline, if there is a title element,
    then the body text, if there is a body element. *)
Definition section_text (b : box) : string :=
  (match title b with Some t => t ++ nl | None => "" end)
    ++ (match body b with Some t => t | None => "" end).

(** Lines 260-269. *)
Definition extract_sections (boxes : list box) : list string :=
  map section_text boxes.

(** Line 271. *)
Definition full_text (sections : list string) : string :=
  join (nl ++ nl) sections.

(** [_embedding_model.encode(texts, convert_to_numpy=True)]: one row per
    text. *)
Definition encode (w : world) (texts : list string) : M (list vec) :=
  emit (EvEncode texts) ;;;
  match encode_error w texts with
  | Some e => raise e
  | None => ret (map (embed w) texts)
  end.

(** [embeddings.shape[1]]. *)
Definition shape1 (rows : list vec) : outcome nat :=
  match rows with
  | [] => Raised "tuple index out of range"
  | v :: _ => Ok (List.length v)
  end.

(** Lines 282-291: the result slots of the search for [query]. *)
Definition ranked (w : world) (sections : list string) (query : string)
  : M (list Faiss.hit) :=
  embeddings <- encode w sections ;;
  dim <- lift (shape1 embeddings) ;;
  emit (EvIndexFlatL2 dim) ;;;
  emit (EvIndexAdd (List.length embeddings)) ;;;
  let index := Faiss.add (Faiss.new dim) embeddings in
  q <- encode w [query] ;;
  q_emb <- lift (getitem q 0) ;;
  emit (EvIndexSearch top_k) ;;;
  ret (Faiss.search index q_emb top_k).

(** The index of lines 285-287, over the embeddings of the sections. *)
Definition built (w : world) (sections : list string) : Faiss.IndexFlatL2 :=
  Faiss.add (Faiss.new (List.length (embed w (hd "" sections))))
            (map (embed w) sections).

(** Line 296: one entry of the answer. *)
Definition entry (dist : Q) (text : string) : string :=
  "[Score: " ++ fmt2 dist ++ "]" ++ nl ++ text.

(** Lines 294-296: the list [results]. *)
Definition collect (sections : list string) (hits : list Faiss.hit)
  : M (list string) :=
  for_each (fun h => s <- lift (getitem sections (snd h)) ;;
                     ret (entry (fst h) s)) hits.

(** The separator of line 299. *)
Definition delimiter : string := nl ++ nl ++ "---" ++ nl ++ nl.

Definition no_faiss : string :=
  "Error: FAISS library is required for large-guide search but is not installed.".

(** Lines 281-299. *)
Definition search_sections (w : world) (sections : list string)
  (query : string) : M string :=
  hits <- ranked w sections query ;;
  results <- collect sections hits ;;
  ret (join delimiter results).

(** Lines 271-299: what the tool does with the extracted sections. *)
Definition guide_text (w : world) (sections : list string) (query : string)
  : M string :=
  if len (full_text sections) <=? threshold_chars then ret (full_text sections)
  else if negb (faiss w) then ret no_faiss
  else search_sections w sections query.

Definition no_subsections (guide_id : string) : string :=
  "Info: No subsections found for guide ID " ++ guide_id ++ ".".

(** Lines 249-299: the body of the [try]. *)
Definition try_body (w : world) (guide_id query : string) : M string :=
  page <- lift (get_guide w guide_id) ;;
  match page with
  | None => ret (no_subsections guide_id)
  | Some boxes => guide_text w (extract_sections boxes) query
  end.

(** Lines 301-303: every exception becomes the returned text, after a line
    on stderr. *)
Definition except_Exception (m : M string) : trace -> string * trace :=
  fun tr =>
    match m tr with
    | (Ok s, tr') => (s, tr')
    | (Raised e, tr') =>
        ("Error fetching guide: " ++ e,
         (tr' ++ [EvStderr ("Error in fetch_steam_guide: " ++ e)])%list)
    end.

(** The tool [fetch_steam_guide(guide_id, query)]. *)
Definition fetch_steam_guide (w : world) (guide_id query : string)
  : trace -> string * trace :=
  except_Exception (try_body w guide_id query).

(** The retrieval on a document that has been fetched and parsed: the tool
    from line 259 to its end, inside the same [try]. *)
Definition retrieve (w : world) (document : list box) (query : string)
  : trace -> string * trace :=
  except_Exception (guide_text w (extract_sections document) query).

(** The list [results] of the call, when it reaches line 299. *)
Definition results (w : world) (document : list box) (query : string)
  : M (list string) :=
  hits <- ranked w (extract_sections document) query ;;
  collect (extract_sections document) hits.

End Guide.

(** ** Concrete worlds and documents *)

Module Sample.

Import Guide.

(** A text of [n] copies of [c]. *)
Fixpoint chars (n : nat) (c : ascii) : string :=
  match n with
  | O => ""
  | S m => String c (chars m c)
  end.

(** A one-dimensional embedding: the length of the text modulo 1000, a
    small integer, so that the distances below are small integers too and
    the float32 arithmetic of the index is exact on them. *)
Definition length_code (s : string) : vec := [inject_Z (len s mod 1000)].

(** A few pages: guide 1 has a container with no section box, guide 2 has no
    container, guide 3 has three short sections, any other GET fails. *)
Definition pages (guide_id : string) : outcome (option (list box)) :=
  if String.eqb guide_id "1" then Ok (Some [])
  else if String.eqb guide_id "2" then Ok None
  else if String.eqb guide_id "3" then
    Ok (Some [ {| title := Some "Intro"; body := Some "Welcome" |};
               {| title := None; body := Some "Boss strategy" |};
               {| title := Some "End"; body := None |} ])
  else Raised "404 Client Error: Not Found for url".

(** FAISS installed, the embedding model working. *)
Definition installed : world :=
  {| faiss := true; get_guide := pages; embed := length_code;
     encode_error := fun _ => None |}.

(** FAISS missing. *)
Definition missing : world :=
  {| faiss := false; get_guide := pages; embed := length_code;
     encode_error := fun _ => None |}.

(** The embedding model failing at run time. *)
Definition broken : world :=
  {| faiss := true; get_guide := pages; embed := length_code;
     encode_error := fun _ => Some "CUDA out of memory" |}.

(** A document of one section of 20001 characters. *)
Definition one_long : list box :=
  [ {| title := None; body := Some (chars (Z.to_nat 20001) "a"%char) |} ].

(** Three sections of 7000, 7001 and 7000 characters: the first and the
    last at the same distance from a query of 4 characters. *)
Definition three_long : list box :=
  [ {| title := None; body := Some (chars (Z.to_nat 7000) "a"%char) |};
    {| title := None; body := Some (chars (Z.to_nat 7001) "b"%char) |};
    {| title := None; body := Some (chars (Z.to_nat 7000) "c"%char) |} ].

(** Two sections of 10001 and 10002 characters. *)
Definition two_long : list box :=
  [ {| title := None; body := Some (chars (Z.to_nat 10001) "a"%char) |};
    {| title := None; body := Some (chars (Z.to_nat 10002) "b"%char) |} ].

(** Six sections of 4000 characters and more. *)
Definition six_long : list box :=
  map (fun n => {| title := Some "T";
                   body := Some (chars (Z.to_nat n) "x"%char) |})
      [4005; 4003; 4001; 4000; 4002; 4004].

End Sample.

(** ** Predicates of the statements *)

(** A decimal digit character. *)
Definition is_digit (c : ascii) : bool :=
  (Nat.leb 48 (nat_of_ascii c)) && (Nat.leb (nat_of_ascii c) 57).

Fixpoint all_digits (s : string) : bool :=
  match s with
  | EmptyString => true
  | String c r => is_digit c && all_digits r
  end.

(** The order of the result slots of a search: distances ascend, and of two
    vectors at the same distance the one with the smaller label is first
    (an unfilled slot has the label [-1]). *)
Definition precedes (a b : Faiss.hit) : Prop :=
  (fst a <= fst b)%Q /\ ((fst a == fst b)%Q -> 0 <= snd b -> snd a < snd b).

(** ** More Python values: the other tools *)

Module Text.

(** [s.replace(' ', '+')]. *)
Fixpoint replace_space (s : string) : string :=
  match s with
  | EmptyString => ""
  | String c r =>
      String (if Ascii.eqb c " "%char then "+"%char else c) (replace_space r)
  end.

(** [str(n)] for an int. *)
Definition str_int (z : Z) : string :=
  if z <? 0 then "-" ++ decimal (- z) else decimal z.

(** The longest prefix of decimal digits: what a greedy [\d+] takes. *)
Fixpoint digits_prefix (s : string) : string :=
  match s with
  | EmptyString => ""
  | String c r => if is_digit c then String c (digits_prefix r) else ""
  end.

(** The pattern [id=(\d+)] at the start of [s]: its group 1. *)
Definition match_id (s : string) : option string :=
  match s with
  | String "i"%char (String "d"%char (String "="%char r)) =>
      match digits_prefix r with
      | EmptyString => None
      | ds => Some ds
      end
  | _ => None
  end.

(** [re.search(r'id=(\d+)', s)]: group 1 of the leftmost match. *)
Fixpoint search_id (s : string) : option string :=
  match match_id s with
  | Some ds => Some ds
  | None =>
      match s with
      | EmptyString => None
      | String _ r => search_id r
      end
  end.

(** [str(e)] for the KeyError of a missing string key. *)
Definition key_error (k : string) : string := "'" ++ k ++ "'".

(** [not v] for the result of [os.environ.get]: unset, or set to the empty
    string. *)
Definition unset (v : option string) : bool :=
  match v with
  | None => true
  | Some EmptyString => true
  | Some _ => false
  end.

(** Sequencing of evaluations that may raise. *)
Definition and_then {A B : Type} (o : outcome A) (k : A -> outcome B)
  : outcome B :=
  match o with
  | Ok a => k a
  | Raised e => Raised e
  end.

(** A list comprehension whose element expression may raise. *)
Fixpoint comprehension {A B : Type} (f : A -> outcome B) (xs : list A)
  : outcome (list B) :=
  match xs with
  | [] => Ok []
  | x :: rest =>
      and_then (f x) (fun y =>
      and_then (comprehension f rest) (fun ys => Ok (y :: ys)))
  end.

(** [d.get(k, default)] on the dict that a comprehension builds from the
    pairs, in their order: a later pair replaces an earlier one with the
    same key. *)
Definition dict_get {V : Type} (pairs : list (string * V)) (k : string)
  (default : V) : V :=
  fold_left (fun acc kv => if String.eqb (fst kv) k then snd kv else acc)
            pairs default.

End Text.

(** ** The tool [search_steam_guides] (lines 155-218) *)

Module Search.

Import Text.

(** An element selected from the page, with what the loop reads of it: the
    [a.workshopItemCollection] inside it ([None] when [select_one] finds
    none) and its [href] attribute ([Some None] when the anchor has none),
    and the texts of the title and description elements, when present. *)
Record element : Type := {
  anchor : option (option string);
  item_title : option string;
  item_desc : option string
}.

(** What a call finds outside itself, by URL: the elements
    [div.workshopItemCollectionContainer] of the guides page (after the
    redirect of lines 184-187 and [raise_for_status]), and the elements
    [a.workshopItemCollection] of the [results_html] of the JSON API. *)
Record world : Type := {
  html_items : string -> outcome (list element);
  json_items : string -> outcome (list element)
}.

(** Lines 167-169. *)
Definition base_url (app_id : Z) (query : string) : string :=
  "https://steamcommunity.com/app/" ++ str_int app_id
    ++ "/guides/?searchText=" ++ replace_space query
    ++ "&browsefilter=toprated".

(** Lines 170-175. *)
Definition json_api (app_id : Z) : string :=
  "https://steamcommunity.com/app/" ++ str_int app_id ++ "/homecontent/"
    ++ "?userreviewsoffset=0&p=1&communityhub=1"
    ++ "&workshopitemspreview=0&readytouseitemspreview=0"
    ++ "&mtxitemspreview=0&itemspreview=0&curations=0".

Definition no_get_text : string :=
  "'NoneType' object has no attribute 'get_text'".

Definition not_subscriptable : string :=
  "'NoneType' object is not subscriptable".

(** Lines 206-207. *)
Definition guide_id_of (link : string) : string :=
  match search_id link with
  | Some ds => ds
  | None => link
  end.

(** Lines 205-214: the entry of one element. *)
Definition entry_of (idx : Z) (el : element) : outcome string :=
  match anchor el with
  | None => Raised not_subscriptable
  | Some None => Raised (key_error "href")
  | Some (Some link) =>
      match item_title el with
      | None => Raised no_get_text
      | Some t =>
          match item_desc el with
          | None => Raised no_get_text
          | Some desc =>
              Ok (str_int idx ++ ". ID: " ++ guide_id_of link ++ nl
                    ++ "   Name: " ++ t ++ nl
                    ++ "   Description: " ++ desc)
          end
      end
  end.

(** Lines 204-214: [for idx, el in enumerate(items, start=idx)]. *)
Fixpoint entries_from (idx : Z) (items : list element)
  : outcome (list string) :=
  match items with
  | [] => Ok []
  | el :: rest =>
      and_then (entry_of idx el) (fun e =>
      and_then (entries_from (idx + 1) rest) (fun es => Ok (e :: es)))
  end.

Definition header (query : string) (items : list element) : string :=
  "Top " ++ str_int (Z.of_nat (List.length items)) ++ " guides for '"
    ++ query ++ "':".

Definition no_guides (app_id : Z) (query : string) : string :=
  "No guides found for '" ++ query ++ "' (AppID " ++ str_int app_id ++ ").".

(** Lines 183-215: the body of the [try]. *)
Definition try_search (w : world) (app_id : Z) (query : string)
  : outcome string :=
  and_then (html_items w (base_url app_id query)) (fun found =>
  and_then (match firstn 10 found with
            | [] => and_then (json_items w (json_api app_id))
                             (fun fallback => Ok (firstn 10 fallback))
            | items => Ok items
            end) (fun items =>
  match items with
  | [] => Ok (no_guides app_id query)
  | _ => and_then (entries_from 1 items) (fun es =>
         Ok (join nl (header query items :: es)))
  end)).

(** The tool [search_steam_guides(app_id, query)]. *)
Definition search_steam_guides (w : world) (app_id : Z) (query : string)
  : string :=
  match try_search w app_id query with
  | Ok s => s
  | Raised e =>
      "Error searching guides for '" ++ query ++ "' (AppID "
        ++ str_int app_id ++ "): " ++ e
  end.

(** Line 241 of [fetch_steam_guide]: the page of a guide. *)
Definition guide_url (guide_id : string) : string :=
  "https://steamcommunity.com/sharedfiles/filedetails/?id=" ++ guide_id.

(** An element that the loop formats without an exception. *)
Definition complete (el : element) : Prop :=
  (exists link, anchor el = Some (Some link))
  /\ item_title el <> None /\ item_desc el <> None.

End Search.

(** ** The tools [get_owned_games] and [get_recently_played_games]
    (lines 23-87) *)

Module Library.

Import Text.

(** A game of the response: its keys, each with the text that the f-string
    prints for its value. *)
Definition game : Type := list (string * string).

(** [game[k]]. *)
Definition subscript (g : game) (k : string) : outcome string :=
  match find (fun kv => String.eqb (fst kv) k) g with
  | Some kv => Ok (snd kv)
  | None => Raised (key_error k)
  end.

(** What a call finds outside itself: the two environment variables read
    when the module is loaded, and for a key and a Steam id the list
    [response.json().get('response', {}).get('games', [])] of each API, or
    the exception of the request. *)
Record world : Type := {
  API_KEY : option string;
  STEAM_ID : option string;
  GetOwnedGames : string -> string -> outcome (list game);
  GetRecentlyPlayedGames : string -> string -> outcome (list game)
}.

Definition missing_env : string :=
  "Error: Missing environment variables API_KEY or STEAM_ID.".

(** Lines 48-49. *)
Definition owned_line (g : game) : outcome string :=
  and_then (subscript g "name") (fun name =>
  and_then (subscript g "appid") (fun appid =>
  and_then (subscript g "playtime_forever") (fun mins =>
  Ok (name ++ " (AppID: " ++ appid ++ ") - Playtime: " ++ mins ++ " mins")))).

(** Lines 81-82. *)
Definition recent_line (g : game) : outcome string :=
  and_then (subscript g "name") (fun name =>
  and_then (subscript g "appid") (fun appid =>
  and_then (subscript g "playtime_2weeks") (fun mins =>
  Ok (name ++ " (AppID: " ++ appid ++ ") - Played " ++ mins
        ++ " mins in last 2 weeks")))).

(** The variables of lines 18-19, when neither is unset or empty. *)
Definition credentials (w : world) : option (string * string) :=
  if unset (API_KEY w) || unset (STEAM_ID w) then None
  else match API_KEY w, STEAM_ID w with
       | Some k, Some i => Some (k, i)
       | _, _ => None
       end.

(** Lines 32-50: the body of the [try]. *)
Definition owned_body (w : world) : M string :=
  match credentials w with
  | None => ret missing_env
  | Some (k, i) =>
      game_list <- lift (GetOwnedGames w k i) ;;
      lines <- lift (comprehension owned_line game_list) ;;
      ret (join nl (("Total games owned: "
                       ++ str_int (Z.of_nat (List.length game_list)))
                      :: lines))
  end.

(** Lines 65-83. *)
Definition recent_body (w : world) : M string :=
  match credentials w with
  | None => ret missing_env
  | Some (k, i) =>
      recent_games <- lift (GetRecentlyPlayedGames w k i) ;;
      match recent_games with
      | [] => ret "No games played in the last two weeks."
      | _ =>
          lines <- lift (comprehension recent_line recent_games) ;;
          ret (join nl (("Recently played games ("
                           ++ str_int (Z.of_nat (List.length recent_games))
                           ++ " found):") :: lines))
      end
  end.

(** An [except Exception as e] that prints [in_log e] to stderr and returns
    [in_answer e]. *)
Definition reporting (in_log in_answer : string) (m : M string)
  : trace -> string * trace :=
  fun tr =>
    match m tr with
    | (Ok s, tr') => (s, tr')
    | (Raised e, tr') =>
        (in_answer ++ e, (tr' ++ [EvStderr (in_log ++ e)])%list)
    end.

(** The tool [get_owned_games()]. *)
Definition get_owned_games (w : world) : trace -> string * trace :=
  reporting "Error in get_owned_games: " "Error fetching owned games: "
            (owned_body w).

(** The tool [get_recently_played_games()]. *)
Definition get_recently_played_games (w : world) : trace -> string * trace :=
  reporting "Error in get_recently_played_games: "
            "Error fetching recent games: " (recent_body w).

(** A game with the three keys that [line] reads. *)
Definition has_keys (ks : list string) (g : game) : Prop :=
  forall k, In k ks -> exists v, subscript g k = Ok v.

End Library.

(** ** The tool [get_game_achievements] (lines 89-153) *)

Module Achievements.

Import Text.

(** The classes that the three [except] clauses tell apart. *)
Inductive exn_class : Type :=
| HTTPError            (* requests.exceptions.HTTPError *)
| RequestException     (* any other requests.exceptions.RequestException *)
| OtherException.      (* any other Exception *)

Inductive response (A : Type) : Type :=
| Got (a : A)
| Failed (c : exn_class) (e : string).
Arguments Got {A} a.
Arguments Failed {A} c e.

(** An entry of [playerstats.achievements] as the response has it: each of
    the keys that line 116 reads is there or not. *)
Record player_entry : Type := {
  entry_apiname : option string;
  entry_achieved : option Z
}.

(** An entry of the global percentages as the response has it: its keys,
    and for the value of [percent] what [float] makes of it, a number or an
    exception. *)
Record global_entry : Type := {
  entry_name : option string;
  entry_percent : option (outcome Q)
}.

(** An entry of [playerstats.achievements] with both keys. *)
Record player_achievement : Type := { apiname : string; achieved : Z }.

(** An achievement of the game schema; [ach.get] finds each key or not. *)
Record schema_achievement : Type := {
  name : option string;
  displayName : option string;
  description : option string
}.

(** An entry of the global percentages with both keys and a number. *)
Record global_achievement : Type := { global_name : string; percent : Q }.

(** What a call finds outside itself: the environment variables and, for
    an app id, the three lists of lines 112, 124 and 134, or the exception
    of the request. *)
Record world : Type := {
  API_KEY : option string;
  STEAM_ID : option string;
  GetPlayerAchievements : Z -> response (list player_entry);
  GetSchemaForGame : Z -> response (list schema_achievement);
  GetGlobalAchievementPercentagesForApp : Z -> response (list global_entry)
}.

Definition missing_env : string :=
  "Error: Missing required environment variables (API_KEY or STEAM_ID).".

(** [ach['apiname']] and [ach['achieved']], in this order. *)
Definition read_player (e : player_entry) : outcome player_achievement :=
  match entry_apiname e with
  | None => Raised (key_error "apiname")
  | Some n =>
      match entry_achieved e with
      | None => Raised (key_error "achieved")
      | Some a => Ok {| apiname := n; achieved := a |}
      end
  end.

(** [a['name']] and [float(a['percent'])], in this order. *)
Definition read_global (e : global_entry) : outcome global_achievement :=
  match entry_name e with
  | None => Raised (key_error "name")
  | Some n =>
      match entry_percent e with
      | None => Raised (key_error "percent")
      | Some (Raised msg) => Raised msg
      | Some (Ok q) => Ok {| global_name := n; percent := q |}
      end
  end.

(** The entry of the response for an achievement with both keys. *)
Definition player_entry_of (a : player_achievement) : player_entry :=
  {| entry_apiname := Some (apiname a); entry_achieved := Some (achieved a) |}.

Definition global_entry_of (a : global_achievement) : global_entry :=
  {| entry_name := Some (global_name a);
     entry_percent := Some (Ok (percent a)) |}.

(** Line 116, on entries that have both keys. *)
Definition unlocked_of (user_achievements : list player_achievement)
  : list (string * bool) :=
  map (fun ach => (apiname ach, achieved ach =? 1)) user_achievements.

(** Line 135, on entries that have both keys and a number. *)
Definition global_percent_of (global_data : list global_achievement)
  : list (string * Q) :=
  map (fun a => (global_name a, percent a)) global_data.

(** [d.get(apiname, default)] where [apiname] may be [None], which is no
    key of [d]. *)
Definition get_by {V : Type} (d : list (string * V)) (k : option string)
  (default : V) : V :=
  match k with
  | Some key => dict_get d key default
  | None => default
  end.

(** Lines 140-145: the text of one achievement of the schema. *)
Definition block (unlocked : list (string * bool))
  (global_percent : list (string * Q)) (ach : schema_achievement) : string :=
  (match displayName ach with
   | Some shown => shown
   | None => match name ach with Some n => n | None => "None" end
   end)
    ++ " | Unlocked: "
    ++ (if get_by unlocked (name ach) false then "Yes" else "No")
    ++ " | Global Unlock Rate: "
    ++ fmt2 (get_by global_percent (name ach) 0%Q) ++ "%" ++ nl
    ++ "Description: "
    ++ (match description ach with Some t => t | None => "No description" end).

(** Lines 148-153: the three [except] clauses. *)
Definition handled (c : exn_class) (e : string) : string :=
  match c with
  | HTTPError => "HTTP Error: " ++ e
  | RequestException => "Network Error: " ++ e
  | OtherException => "Unexpected Error: " ++ e
  end.

(** The tool [get_game_achievements(app_id)].  The KeyError of an entry
    without one of its keys, and the exception of [float], are no exception
    of [requests]: the last [except] clause reports them. *)
Definition get_game_achievements (w : world) (app_id : Z) : string :=
  if unset (API_KEY w) || unset (STEAM_ID w) then missing_env
  else
    match GetPlayerAchievements w app_id with
    | Failed c e => handled c e
    | Got [] =>
        "Info: No achievement data available for AppID " ++ str_int app_id
          ++ "."
    | Got user_achievements =>
        match comprehension read_player user_achievements with
        | Raised e => handled OtherException e
        | Ok user =>
            match GetSchemaForGame w app_id with
            | Failed c e => handled c e
            | Got [] =>
                "Info: No achievement schema found for AppID "
                  ++ str_int app_id ++ "."
            | Got schema =>
                match GetGlobalAchievementPercentagesForApp w app_id with
                | Failed c e => handled c e
                | Got global_data =>
                    match comprehension read_global global_data with
                    | Raised e => handled OtherException e
                    | Ok percents =>
                        "Achievements for AppID " ++ str_int app_id ++ ":"
                          ++ nl ++ nl
                          ++ join (nl ++ nl)
                               (map (block (unlocked_of user)
                                           (global_percent_of percents))
                                    schema)
                    end
                end
            end
        end
    end.

End Achievements.

(** ** The earlier [fetch_steam_guide] of [server.py] (lines 204-243) *)

Module Legacy.

Import Guide.

(** Line 237: the title, or [Untitled], a newline, and the body text. *)
Definition section_text (b : box) : string :=
  (match title b with Some t => t | None => "Untitled" end) ++ nl
    ++ (match body b with Some t => t | None => "" end).

(** Line 228: a string literal without the [f] prefix. *)
Definition no_subsections : string :=
  "Info: No subsections found for guide ID {guide_id}.".

(** Lines 219-239: the body of the [try]. *)
Definition try_body (w : world) (guide_id : string) : M string :=
  page <- lift (get_guide w guide_id) ;;
  match page with
  | None => ret no_subsections
  | Some boxes => ret (join (nl ++ nl) (map section_text boxes))
  end.

(** The tool [fetch_steam_guide(guide_id)]. *)
Definition fetch_steam_guide (w : world) (guide_id : string)
  : trace -> string * trace :=
  except_Exception (try_body w guide_id).

End Legacy.

(** ** The process: what a call can read and leave behind

    Lines 271-303 of [fetch_steam_guide] once more, with the state of the
    process that outlives a call: the module-level [_embedding_model],
    whose [encode] may read and change the state of the model object, the
    index objects that [faiss.IndexFlatL2] has allocated, and stderr. *)

Module Process.

Section Host.

(** The state of the model object. *)
Variable S : Type.

Record process : Type := {
  model : S;
  indexes : list Faiss.IndexFlatL2;    (* the index objects, by address *)
  stderr : list string
}.

(** What the module finds when it is loaded: whether [import faiss]
    succeeded, and the model, whose [encode] runs on the state of the model
    object and leaves a new one. *)
Record host : Type := {
  faiss_imported : bool;
  model_encode : S -> list string -> outcome (list vec) * S
}.

(** A computation on the process that may raise. *)
Definition P (A : Type) : Type := process -> outcome A * process.

Definition unit_ {A : Type} (a : A) : P A := fun p => (Ok a, p).

Definition then_ {A B : Type} (m : P A) (k : A -> P B) : P B :=
  fun p =>
    match m p with
    | (Ok a, p') => k a p'
    | (Raised e, p') => (Raised e, p')
    end.

Definition of_outcome {A : Type} (o : outcome A) : P A := fun p => (o, p).

(** [_embedding_model.encode(texts, convert_to_numpy=True)]. *)
Definition encode (h : host) (texts : list string) : P (list vec) :=
  fun p =>
    let r := model_encode h (model p) texts in
    (fst r, {| model := snd r; indexes := indexes p; stderr := stderr p |}).

(** [faiss.IndexFlatL2(dim)]: a new index object, at the next address. *)
Definition IndexFlatL2 (dim : nat) : P nat :=
  fun p =>
    (Ok (List.length (indexes p)),
     {| model := model p;
        indexes := (indexes p ++ [Faiss.new dim])%list;
        stderr := stderr p |}).

(** The objects with the one at address [a] replaced. *)
Fixpoint store (a : nat) (x : Faiss.IndexFlatL2)
  (objects : list Faiss.IndexFlatL2) : list Faiss.IndexFlatL2 :=
  match objects, a with
  | [], _ => []
  | _ :: rest, O => x :: rest
  | y :: rest, Datatypes.S a' => y :: store a' x rest
  end.

Definition no_object : string := "no index object at this address".

(** [index.add(xs)] on the object at address [a]. *)
Definition add (a : nat) (xs : list vec) : P unit :=
  fun p =>
    match nth_error (indexes p) a with
    | Some index =>
        (Ok tt,
         {| model := model p;
            indexes := store a (Faiss.add index xs) (indexes p);
            stderr := stderr p |})
    | None => (Raised no_object, p)
    end.

(** [index.search(q, k)] on the object at address [a]. *)
Definition search (a : nat) (q : vec) (k : nat) : P (list Faiss.hit) :=
  fun p =>
    match nth_error (indexes p) a with
    | Some index => (Ok (Faiss.search index q k), p)
    | None => (Raised no_object, p)
    end.

(** Lines 294-296. *)
Definition collect (sections : list string) (hits : list Faiss.hit)
  : outcome (list string) :=
  Text.comprehension
    (fun h => Text.and_then (getitem sections (snd h))
                            (fun s => Ok (Guide.entry (fst h) s))) hits.

(** Lines 281-299. *)
Definition search_sections (h : host) (sections : list string)
  (query : string) : P string :=
  then_ (encode h sections) (fun embeddings =>
  then_ (of_outcome (Guide.shape1 embeddings)) (fun dim =>
  then_ (IndexFlatL2 dim) (fun index =>
  then_ (add index embeddings) (fun _ =>
  then_ (encode h [query]) (fun q =>
  then_ (of_outcome (getitem q 0)) (fun q_emb =>
  then_ (search index q_emb Guide.top_k) (fun hits =>
  then_ (of_outcome (collect sections hits)) (fun results =>
  unit_ (join Guide.delimiter results))))))))).

(** Lines 271-299. *)
Definition guide_text (h : host) (sections : list string) (query : string)
  : P string :=
  if len (Guide.full_text sections) <=? Guide.threshold_chars
  then unit_ (Guide.full_text sections)
  else if negb (faiss_imported h) then unit_ Guide.no_faiss
  else search_sections h sections query.

(** Lines 301-303. *)
Definition except_Exception (m : P string) : process -> string * process :=
  fun p =>
    match m p with
    | (Ok s, p') => (s, p')
    | (Raised e, p') =>
        ("Error fetching guide: " ++ e,
         {| model := model p'; indexes := indexes p';
            stderr := (stderr p'
                         ++ [("Error in fetch_steam_guide: " ++ e)%string]
                      )%list |})
    end.

(** The retrieval on a fetched and parsed document, in the process. *)
Definition retrieve (h : host) (document : list Guide.box) (query : string)
  : process -> string * process :=
  except_Exception (guide_text h (Guide.extract_sections document) query).

(** The model gives the same result for the same texts, whatever the state
    of the model object. *)
Definition deterministic (h : host) : Prop :=
  forall (s s' : S) (texts : list string),
    fst (model_encode h s texts) = fst (model_encode h s' texts).

End Host.

Arguments model {S} _.
Arguments indexes {S} _.
Arguments stderr {S} _.
Arguments faiss_imported {S} _.
Arguments model_encode {S} _ _ _.
Arguments retrieve {S} h document query _.
Arguments guide_text {S} h sections query _.
Arguments search_sections {S} h sections query _.
Arguments except_Exception {S} m _.
Arguments encode {S} h texts _.
Arguments IndexFlatL2 {S} dim _.
Arguments add {S} a xs _.
Arguments search {S} a q k _.
Arguments deterministic {S} h.

End Process.

(** ** Concrete worlds of the other tools *)

(** Whether the character occurs in the text. *)
Fixpoint contains_char (c : ascii) (s : string) : bool :=
  match s with
  | EmptyString => false
  | String x r => Ascii.eqb x c || contains_char c r
  end.

(** The characters of a box in the full text: the title and its newline,
    and the body. *)
Definition box_chars (b : Guide.box) : Z :=
  (match Guide.title b with Some t => len t + 1 | None => 0 end)
  + (match Guide.body b with Some t => len t | None => 0 end).

(** The value of a decimal digit character. *)
Definition digit_value (c : ascii) : Z := Z.of_nat (nat_of_ascii c) - 48.

(** [r] is the entry of the section text [s] at distance [d]: the line
    [[Score: n.ab]], a newline and [s], where [n] is a decimal numeral, [a]
    and [b] are digits, and the number of hundredths they denote is nearest
    to [d]. *)
Definition scored_entry (d : Q) (s r : string) : Prop :=
  exists (n : string) (u : Decimal.uint) (a b : ascii),
    r = "[Score: " ++ (n ++ "." ++ String a (String b "")) ++ "]" ++ nl ++ s
    /\ NilZero.uint_of_string n = Some u
    /\ is_digit a = true /\ is_digit b = true
    /\ (inject_Z (100 * Z.of_N (N.of_uint u) + 10 * digit_value a
                  + digit_value b) - (1 # 2) <= d * 100)%Q
    /\ (d * 100 <= inject_Z (100 * Z.of_N (N.of_uint u) + 10 * digit_value a
                             + digit_value b) + (1 # 2))%Q.

Module SampleTools.

(** A guides page with twelve containers: the first eleven complete, the
    twelfth without a title element. *)
Definition container (n : Z) : Search.element :=
  {| Search.anchor :=
       Some (Some (Search.guide_url (Text.str_int n) ++ "&searchtext=boss"));
     Search.item_title := Some "Boss guide";
     Search.item_desc := Some "How to beat the boss" |}.

Definition untitled : Search.element :=
  {| Search.anchor := Some (Some "https://steamcommunity.com/x");
     Search.item_title := None;
     Search.item_desc := Some "No title here" |}.

Definition twelve : list Search.element :=
  (map container [101; 102; 103; 104; 105; 106; 107; 108; 109; 110; 111]
     ++ [untitled])%list.

(** The page lists [found]; the JSON API fails. *)
Definition listing (found : list Search.element) : Search.world :=
  {| Search.html_items := fun _ => Ok found;
     Search.json_items := fun _ => Raised "503 Server Error" |}.

(** The page lists [found]; the JSON API lists one container. *)
Definition listing_with_fallback (found : list Search.element)
  : Search.world :=
  {| Search.html_items := fun _ => Ok found;
     Search.json_items := fun _ => Ok [container 7] |}.

Definition portal : Library.game :=
  [("appid", "400"); ("name", "Portal"); ("playtime_forever", "315");
   ("playtime_2weeks", "12")].

Definition nameless : Library.game :=
  [("appid", "620"); ("playtime_forever", "0"); ("playtime_2weeks", "0")].

(** Both variables set, each API answering with [games]. *)
Definition account (games : list Library.game) : Library.world :=
  {| Library.API_KEY := Some "KEY"; Library.STEAM_ID := Some "7656";
     Library.GetOwnedGames := fun _ _ => Ok games;
     Library.GetRecentlyPlayedGames := fun _ _ => Ok games |}.

(** [STEAM_ID] set to the empty string. *)
Definition no_steam_id : Library.world :=
  {| Library.API_KEY := Some "KEY"; Library.STEAM_ID := Some "";
     Library.GetOwnedGames := fun _ _ => Ok [portal];
     Library.GetRecentlyPlayedGames := fun _ _ => Ok [portal] |}.

(** The statistics of a game with two achievements, for a player whose
    list is [user]. *)
Definition stats (user : list Achievements.player_achievement)
  : Achievements.world :=
  {| Achievements.API_KEY := Some "KEY";
     Achievements.STEAM_ID := Some "7656";
     Achievements.GetPlayerAchievements := fun _ =>
       Achievements.Got (map Achievements.player_entry_of user);
     Achievements.GetSchemaForGame := fun _ =>
       Achievements.Got
         [ {| Achievements.name := Some "ACH_WIN";
              Achievements.displayName := Some "Winner";
              Achievements.description := Some "Win a game" |};
           {| Achievements.name := Some "ACH_LOSE";
              Achievements.displayName := None;
              Achievements.description := None |} ];
     Achievements.GetGlobalAchievementPercentagesForApp := fun _ =>
       Achievements.Got
         [ {| Achievements.entry_name := Some "ACH_WIN";
              Achievements.entry_percent := Some (Ok (111 # 2)%Q) |} ] |}.

Definition won : Achievements.player_achievement :=
  {| Achievements.apiname := "ACH_WIN"; Achievements.achieved := 1 |}.

Definition not_lost : Achievements.player_achievement :=
  {| Achievements.apiname := "ACH_LOSE"; Achievements.achieved := 0 |}.

(** A model object whose state counts the calls of [encode], with FAISS
    imported. *)
Definition counting : Process.host nat :=
  {| Process.faiss_imported := true;
     Process.model_encode := fun calls texts =>
       (Ok (map Sample.length_code texts), Datatypes.S calls) |}.

(** A process in which the model has been called seven times and an index
    of another call is still allocated. *)
Definition running : Process.process nat :=
  {| Process.model := 7%nat;
     Process.indexes := [Faiss.add (Faiss.new 1) [[3%Q]; [5%Q]]];
     Process.stderr := ["Error in fetch_steam_guide: timed out"] |}.

(** A page whose boxes all have a title. *)
Definition titled : list Guide.box :=
  [ {| Guide.title := Some "Intro"; Guide.body := Some "Welcome" |};
    {| Guide.title := Some "End"; Guide.body := None |} ].

Definition titled_world : Guide.world :=
  {| Guide.faiss := true;
     Guide.get_guide := fun _ => Ok (Some titled);
     Guide.embed := Sample.length_code;
     Guide.encode_error := fun _ => None |}.

End SampleTools.

(** ** Python values: lemmas *)

Lemma all_digits_NilEmpty (u : Decimal.uint) :
  all_digits (NilEmpty.string_of_uint u) = true.
Proof. induction u; simpl; auto. Qed.

Lemma decimal_digits (z : Z) : all_digits (decimal z) = true.
Proof.
  unfold decimal, NilZero.string_of_uint.
  destruct (N.to_uint (Z.to_N z)) eqn:E; try reflexivity;
    rewrite <- E; apply all_digits_NilEmpty.
Qed.

Lemma decimal_nonempty (z : Z) : decimal z <> "".
Proof.
  unfold decimal, NilZero.string_of_uint.
  destruct (N.to_uint (Z.to_N z)); simpl; discriminate.
Qed.

Lemma digit_is_digit (k : Z) : 0 <= k < 10 -> is_digit (digit k) = true.
Proof.
  intros H.
  assert (C : k = 0 \/ k = 1 \/ k = 2 \/ k = 3 \/ k = 4 \/ k = 5 \/ k = 6
              \/ k = 7 \/ k = 8 \/ k = 9) by lia.
  repeat destruct C as [C | C]; subst k; reflexivity.
Qed.

(** The hundredths printed are the nearest to the value. *)
Lemma round_half_even_nearest (q : Q) :
  (inject_Z (round_half_even q) - (1 # 2) <= q
   /\ q <= inject_Z (round_half_even q) + (1 # 2))%Q.
Proof.
  unfold round_half_even.
  pose proof (Qfloor_le q) as Hl.
  pose proof (Qlt_floor q) as Hu.
  rewrite inject_Z_plus in Hu.
  change (inject_Z 1) with 1%Q in Hu.
  destruct (Qcompare_spec (q - inject_Z (Qfloor q)) (1 # 2)) as [E | L | G].
  - destruct (Z.even (Qfloor q)).
    + split; lra.
    + rewrite inject_Z_plus. change (inject_Z 1) with 1%Q. split; lra.
  - split; lra.
  - rewrite inject_Z_plus. change (inject_Z 1) with 1%Q. split; lra.
Qed.

(** The two decimals of [fmt2] are the hundredths nearest to the absolute
    value. *)
Lemma hundredths_nearest (q : Q) :
  (inject_Z (hundredths q) - (1 # 2) <= Qabs q * 100
   /\ Qabs q * 100 <= inject_Z (hundredths q) + (1 # 2))%Q.
Proof. apply round_half_even_nearest. Qed.

Lemma getitem_nonneg {A : Type} (l : list A) (i : Z) (a : A) :
  0 <= i -> getitem l i = Ok a -> nth_error l (Z.to_nat i) = Some a.
Proof.
  intros Hi. unfold getitem.
  destruct (Z.ltb_spec i 0) as [H | _]; [lia |].
  destruct ((0 <=? i) && (i <? Z.of_nat (List.length l))); [| discriminate].
  destruct (nth_error l (Z.to_nat i)); [| discriminate].
  intros E; inversion E; reflexivity.
Qed.

Lemma getitem_in_range {A : Type} (l : list A) (i : Z) :
  - Z.of_nat (List.length l) <= i < Z.of_nat (List.length l) ->
  exists a, getitem l i = Ok a.
Proof.
  intros H. unfold getitem.
  set (n := Z.of_nat (List.length l)) in *.
  set (j := if i <? 0 then n + i else i).
  assert (Hj : 0 <= j < n).
  { unfold j. destruct (Z.ltb_spec i 0); lia. }
  replace ((0 <=? j) && (j <? n)) with true
    by (symmetry; apply andb_true_iff; split;
        [apply Z.leb_le | apply Z.ltb_lt]; lia).
  destruct (nth_error l (Z.to_nat j)) eqn:E; [eauto |].
  apply nth_error_None in E. unfold n in Hj. lia.
Qed.

(** ** The flat index: lemmas *)

Module FaissFacts.

Import Faiss.

Lemma cmp2_lt (a b : hit) :
  cmp2 a b = true <->
  ((fst a < fst b)%Q \/ ((fst a == fst b)%Q /\ snd a < snd b)).
Proof.
  unfold cmp2.
  destruct (Qcompare_spec (fst a) (fst b)) as [E | L | G].
  - rewrite Z.ltb_lt. split; [auto | intros [H | [_ H]]; [lra | exact H]].
  - split; auto.
  - split; [discriminate | intros [H | [H _]]; lra].
Qed.

Lemma cmp2_trans (a b c : hit) :
  cmp2 a b = true -> cmp2 b c = true -> cmp2 a c = true.
Proof.
  rewrite !cmp2_lt.
  intros [H1 | [H1 L1]] [H2 | [H2 L2]];
    try (left; lra); right; split; [lra | lia].
Qed.

Lemma cmp2_total (a b : hit) :
  cmp2 a b = false -> snd a <> snd b -> cmp2 b a = true.
Proof.
  intros H N. apply cmp2_lt.
  destruct (Qcompare_spec (fst b) (fst a)) as [E | L | G]; [| auto |].
  - destruct (Z.lt_total (snd b) (snd a)) as [L | [L | L]]; [auto | congruence |].
    assert (T : cmp2 a b = true) by (apply cmp2_lt; right; split; [lra | lia]).
    congruence.
  - assert (T : cmp2 a b = true) by (apply cmp2_lt; left; lra).
    congruence.
Qed.

Lemma In_insert (h x : hit) (l : list hit) :
  In x (insert h l) <-> x = h \/ In x l.
Proof.
  induction l as [| y r IH]; simpl.
  - intuition.
  - destruct (cmp2 h y); simpl; [intuition | rewrite IH; intuition].
Qed.

Lemma In_sort (x : hit) (l : list hit) : In x (sort l) <-> In x l.
Proof.
  induction l as [| h r IH]; simpl; [tauto |].
  rewrite In_insert, IH. intuition.
Qed.

Lemma insert_sorted (h : hit) (l : list hit) :
  StronglySorted (fun a b => cmp2 a b = true) l ->
  Forall (fun x => snd x <> snd h) l ->
  StronglySorted (fun a b => cmp2 a b = true) (insert h l).
Proof.
  induction 1 as [| y r Hr IH Hy]; intros Hd; simpl.
  - repeat constructor.
  - inversion Hd as [| ? ? Hdy Hdr]; subst.
    destruct (cmp2 h y) eqn:C.
    + constructor; [constructor; assumption |].
      constructor; [exact C |].
      eapply Forall_impl; [| exact Hy].
      intros z Hz. eapply cmp2_trans; eassumption.
    + constructor; [apply IH; assumption |].
      apply Forall_forall. intros z Hz.
      apply In_insert in Hz. destruct Hz as [-> | Hz].
      * apply cmp2_total; auto.
      * rewrite Forall_forall in Hy. auto.
Qed.

Lemma candidates_spec (q : vec) (ys : list vec) (j : Z) (x : hit) :
  In x (candidates j q ys) ->
  j <= snd x < j + Z.of_nat (List.length ys) /\ (fst x < FLT_MAX)%Q.
Proof.
  revert j. induction ys as [| y r IH]; intros j; [simpl; tauto |].
  assert (R : In x (candidates (j + 1) q r) ->
              j <= snd x < j + Z.of_nat (List.length (y :: r))
              /\ (fst x < FLT_MAX)%Q).
  { intros H. apply IH in H. simpl List.length. split; [lia | tauto]. }
  cbn [candidates].
  destruct (Qcompare_spec (fvec_L2sqr q y) FLT_MAX) as [E | L | G]; auto.
  intros [<- | H]; [| auto].
  simpl. split; [lia | exact L].
Qed.

Lemma sort_candidates_sorted (q : vec) (ys : list vec) (j : Z) :
  StronglySorted (fun a b => cmp2 a b = true) (sort (candidates j q ys)).
Proof.
  revert j. induction ys as [| y r IH]; intros j; [constructor |].
  cbn [candidates].
  destruct (Qcompare (fvec_L2sqr q y) FLT_MAX); auto.
  cbn [sort]. apply insert_sorted; [apply IH |].
  apply Forall_forall. intros x Hx.
  apply In_sort, candidates_spec in Hx. simpl. lia.
Qed.

Lemma StronglySorted_firstn {A : Type} (R : A -> A -> Prop) (n : nat)
  (l : list A) : StronglySorted R l -> StronglySorted R (firstn n l).
Proof.
  intros H. revert n. induction H as [| a l Hl IH Ha]; intros [| n]; simpl;
    try constructor; auto.
  apply Forall_forall. intros x Hx.
  rewrite Forall_forall in Ha. apply Ha.
  rewrite <- (firstn_skipn n l). apply in_or_app; auto.
Qed.

Lemma StronglySorted_app {A : Type} (R : A -> A -> Prop) (l1 l2 : list A) :
  StronglySorted R l1 -> StronglySorted R l2 ->
  (forall a b, In a l1 -> In b l2 -> R a b) ->
  StronglySorted R (l1 ++ l2).
Proof.
  induction 1 as [| a l Hl IH Ha]; intros H2 Hc; simpl; [assumption |].
  constructor.
  - apply IH; [assumption | intros; apply Hc; simpl; auto].
  - apply Forall_app. split; [assumption |].
    apply Forall_forall. intros b Hb. apply Hc; simpl; auto.
Qed.

Lemma StronglySorted_weaken {A : Type} (R S : A -> A -> Prop) (l : list A) :
  (forall a b, In a l -> In b l -> R a b -> S a b) ->
  StronglySorted R l -> StronglySorted S l.
Proof.
  intros HRS H. induction H as [| a l Hl IH Ha]; constructor.
  - apply IH. intros; apply HRS; simpl; auto.
  - rewrite Forall_forall in *. intros b Hb.
    apply HRS; simpl; auto.
Qed.

Lemma StronglySorted_nth_error {A : Type} (R : A -> A -> Prop) (l : list A) :
  StronglySorted R l ->
  forall (p r : nat) (a b : A),
    (p < r)%nat -> nth_error l p = Some a -> nth_error l r = Some b -> R a b.
Proof.
  induction 1 as [| x l Hl IH Hx]; intros p r a b Hpr Hp Hr.
  - destruct p; discriminate.
  - destruct r as [| r]; [lia |]. simpl in Hr.
    destruct p as [| p]; simpl in Hp.
    + inversion Hp; subst. rewrite Forall_forall in Hx.
      apply Hx. eapply nth_error_In; eassumption.
    + apply (IH p r); auto. lia.
Qed.

Lemma knn_spec (index : IndexFlatL2) (q : vec) (k : nat) (x : hit) :
  In x (knn index q k) ->
  0 <= snd x < Z.of_nat (ntotal index) /\ (fst x < FLT_MAX)%Q.
Proof.
  unfold knn, ntotal. intros H.
  assert (H' : In x (sort (candidates 0 q (xb index)))).
  { rewrite <- (firstn_skipn k (sort _)). apply in_or_app; auto. }
  apply In_sort, candidates_spec in H'. split; [lia | tauto].
Qed.

Lemma search_length (index : IndexFlatL2) (q : vec) (k : nat) :
  List.length (search index q k) = k.
Proof.
  unfold search. rewrite length_app, repeat_length.
  assert (List.length (knn index q k) <= k)%nat
    by (unfold knn; apply firstn_le_length).
  lia.
Qed.

Lemma search_labels (index : IndexFlatL2) (q : vec) (k : nat) (x : hit) :
  In x (search index q k) ->
  snd x = -1 \/ 0 <= snd x < Z.of_nat (ntotal index).
Proof.
  unfold search. intros H. apply in_app_or in H. destruct H as [H | H].
  - right. apply knn_spec in H. tauto.
  - left. apply repeat_spec in H. subst x. reflexivity.
Qed.

Lemma search_precedes (index : IndexFlatL2) (q : vec) (k : nat) :
  StronglySorted precedes (search index q k).
Proof.
  unfold search. apply StronglySorted_app.
  - apply StronglySorted_weaken with (R := fun a b => cmp2 a b = true).
    + intros a b _ _ H. apply cmp2_lt in H. unfold precedes.
      destruct H as [H | [H L]]; split; intros; try lra; lia.
    + unfold knn. apply StronglySorted_firstn, sort_candidates_sorted.
  - generalize (k - List.length (knn index q k))%nat as n.
    induction n as [| n IH]; simpl; constructor; [exact IH |].
    apply Forall_forall. intros b Hb. apply repeat_spec in Hb. subst b.
    unfold precedes. simpl. split; [apply Qle_refl | lia].
  - intros a b Ha Hb. apply knn_spec in Ha. apply repeat_spec in Hb. subst b.
    unfold precedes. simpl. split; [apply Qlt_le_weak; tauto | lia].
Qed.

End FaissFacts.

(** ** The tool: lemmas *)

Module GuideFacts.

Import Guide.

Lemma bind_ok {A B : Type} (m : M A) (k : A -> M B) (tr tr' : trace) (a : A) :
  m tr = (Ok a, tr') -> bind m k tr = k a tr'.
Proof. intros H. unfold bind. rewrite H. reflexivity. Qed.

Lemma bind_raised {A B : Type} (m : M A) (k : A -> M B) (tr tr' : trace)
  (e : string) :
  m tr = (Raised e, tr') -> bind m k tr = (Raised e, tr').
Proof. intros H. unfold bind. rewrite H. reflexivity. Qed.

(** A document longer than the threshold has a section. *)
Lemma long_nonempty (sections : list string) :
  threshold_chars < len (full_text sections) -> sections <> [].
Proof.
  intros H E. subst sections. unfold threshold_chars in H.
  cbn in H. lia.
Qed.

Lemma encode_ok (w : world) (texts : list string) (tr : trace) :
  encode_error w texts = None ->
  encode w texts tr = (Ok (map (embed w) texts), (tr ++ [EvEncode texts])%list).
Proof.
  intros H. unfold encode, bind, emit. rewrite H. reflexivity.
Qed.

Lemma encode_fails (w : world) (texts : list string) (tr : trace) (e : string) :
  encode_error w texts = Some e ->
  encode w texts tr = (Raised e, (tr ++ [EvEncode texts])%list).
Proof.
  intros H. unfold encode, bind, emit. rewrite H. reflexivity.
Qed.

Lemma ranked_ok (w : world) (sections : list string) (query : string)
  (tr : trace) :
  sections <> [] ->
  encode_error w sections = None ->
  encode_error w [query] = None ->
  exists tr',
    ranked w sections query tr
    = (Ok (Faiss.search (built w sections) (embed w query) top_k), tr').
Proof.
  intros Hne Hs Hq. unfold ranked.
  rewrite (bind_ok _ _ _ _ _ (encode_ok w sections tr Hs)).
  destruct sections as [| s rest]; [congruence |].
  unfold lift at 1, bind at 1. cbn [map shape1].
  unfold emit at 1, bind at 1. unfold emit at 1, bind at 1.
  erewrite bind_ok by (apply encode_ok; exact Hq).
  cbn. eexists. reflexivity.
Qed.

Lemma collect_ok (sections : list string) (hits : list Faiss.hit) (tr : trace) :
  sections <> [] ->
  (forall h, In h hits ->
             snd h = -1 \/ 0 <= snd h < Z.of_nat (List.length sections)) ->
  exists rs,
    collect sections hits tr = (Ok rs, tr)
    /\ Forall2 (fun h r => exists s, getitem sections (snd h) = Ok s
                                     /\ r = entry (fst h) s) hits rs.
Proof.
  intros Hne. unfold collect.
  induction hits as [| h rest IH]; intros Hl.
  - exists []. split; [reflexivity | constructor].
  - destruct IH as [rs [Hrs HF]]; [intros; apply Hl; simpl; auto |].
    destruct (getitem_in_range sections (snd h)) as [s Hs].
    { assert (0 < Z.of_nat (List.length sections))
        by (destruct sections; [congruence | simpl; lia]).
      destruct (Hl h) as [E | R]; [simpl; auto | rewrite E; lia | lia]. }
    exists (entry (fst h) s :: rs). split.
    + cbn [for_each]. unfold bind, lift, ret in *.
      rewrite Hs, Hrs. reflexivity.
    + constructor; [eauto | exact HF].
Qed.

Lemma ntotal_built (w : world) (sections : list string) :
  Faiss.ntotal (built w sections) = List.length sections.
Proof. unfold Faiss.ntotal, built. simpl. apply length_map. Qed.

(** What a call does in search mode, when the embedding model works. *)
Lemma search_mode (w : world) (document : list box) (query : string)
  (tr : trace) :
  threshold_chars < len (full_text (extract_sections document)) ->
  faiss w = true ->
  encode_error w (extract_sections document) = None ->
  encode_error w [query] = None ->
  exists hits rs tr',
    hits = Faiss.search (built w (extract_sections document))
                        (embed w query) top_k
    /\ ranked w (extract_sections document) query tr = (Ok hits, tr')
    /\ results w document query tr = (Ok rs, tr')
    /\ retrieve w document query tr = (join delimiter rs, tr')
    /\ Forall2 (fun h r =>
                  exists s, getitem (extract_sections document) (snd h) = Ok s
                            /\ r = entry (fst h) s) hits rs.
Proof.
  intros Hlong Hf Hs Hq.
  set (sections := extract_sections document) in *.
  pose proof (long_nonempty sections Hlong) as Hne.
  destruct (ranked_ok w sections query tr Hne Hs Hq) as [tr' Hr].
  destruct (collect_ok sections
              (Faiss.search (built w sections) (embed w query) top_k) tr' Hne)
    as [rs [Hc HF]].
  { intros h Hh. apply FaissFacts.search_labels in Hh.
    rewrite ntotal_built in Hh. exact Hh. }
  exists (Faiss.search (built w sections) (embed w query) top_k), rs, tr'.
  repeat split; auto.
  - unfold results. fold sections. rewrite (bind_ok _ _ _ _ _ Hr). exact Hc.
  - unfold retrieve, except_Exception, guide_text. fold sections.
    replace (len (full_text sections) <=? threshold_chars) with false
      by (symmetry; apply Z.leb_gt; exact Hlong).
    rewrite Hf. cbn [negb]. unfold search_sections.
    rewrite (bind_ok _ _ _ _ _ Hr), (bind_ok _ _ _ _ _ Hc). reflexivity.
Qed.

(** In search mode the list [results] has [top_k] entries, whatever the
    number of sections. *)
Lemma results_length (w : world) (document : list box) (query : string)
  (tr : trace) :
  threshold_chars < len (full_text (extract_sections document)) ->
  faiss w = true ->
  encode_error w (extract_sections document) = None ->
  encode_error w [query] = None ->
  exists rs, fst (results w document query tr) = Ok rs
             /\ List.length rs = top_k.
Proof.
  intros Hlong Hf Hs Hq.
  destruct (search_mode w document query tr Hlong Hf Hs Hq)
    as (hits & rs & tr' & Hh & _ & Hr & _ & HF).
  exists rs. rewrite Hr. split; [reflexivity |].
  apply Forall2_length in HF. rewrite <- HF, Hh.
  apply FaissFacts.search_length.
Qed.

Lemma guide_text_long (w : world) (sections : list string) (query : string) :
  threshold_chars < len (full_text sections) ->
  guide_text w sections query
  = if negb (faiss w) then ret no_faiss else search_sections w sections query.
Proof.
  intros Hlong. unfold guide_text.
  replace (len (full_text sections) <=? threshold_chars) with false
    by (symmetry; apply Z.leb_gt; exact Hlong).
  reflexivity.
Qed.

(** An exception of the embedding model, on the sections or on the query,
    leaves the search. *)
Lemma search_sections_raises (w : world) (sections : list string)
  (query e : string) (tr : trace) :
  sections <> [] ->
  encode_error w sections = Some e
  \/ (encode_error w sections = None /\ encode_error w [query] = Some e) ->
  exists tr', search_sections w sections query tr = (Raised e, tr').
Proof.
  intros Hne [Hs | [Hs Hq]]; unfold search_sections, ranked.
  - eexists. erewrite bind_raised; [reflexivity |].
    erewrite bind_raised; [reflexivity |].
    apply encode_fails. exact Hs.
  - destruct sections as [| s rest]; [congruence |].
    eexists. erewrite bind_raised; [reflexivity |].
    rewrite (bind_ok _ _ _ _ _ (encode_ok w (s :: rest) tr Hs)).
    unfold lift at 1, bind at 1. cbn [map shape1].
    unfold emit at 1, bind at 1. unfold emit at 1, bind at 1.
    erewrite bind_raised; [reflexivity |].
    apply encode_fails. exact Hq.
Qed.

End GuideFacts.

(** ** The retrieval contract *)

Import Guide GuideFacts.

Example fmt2_examples :
  fmt2 (5 # 4) = "1.25" /\ fmt2 (1 # 8) = "0.12" /\ fmt2 (3 # 8) = "0.38"
  /\ fmt2 (399880009 # 1) = "399880009.00" /\ fmt2 (-(1 # 1000)) = "-0.00"
  /\ fmt2 (1999 # 1000) = "2.00"
  /\ fmt2 Faiss.FLT_MAX = "340282346638528859811704183484516925440.00".
Proof. repeat split; reflexivity. Qed.

Example guide_3_is_short :
  fetch_steam_guide Sample.installed "3" "boss" []
  = ("Intro" ++ nl ++ "Welcome" ++ nl ++ nl ++ "Boss strategy" ++ nl ++ nl
       ++ "End" ++ nl, []).
Proof. reflexivity. Qed.

(** The tool on a page with a container is the retrieval on its boxes. *)
Lemma fetch_steam_guide_retrieve (w : world) (guide_id query : string)
  (document : list box) (tr : trace) :
  get_guide w guide_id = Ok (Some document) ->
  fetch_steam_guide w guide_id query tr = retrieve w document query tr.
Proof.
  intros H. unfold fetch_steam_guide, retrieve, except_Exception, try_body.
  unfold bind, lift. rewrite H. reflexivity.
Qed.

(** C1. A document whose full text (for each section the title and a
    newline, if it has a title, then the body; the sections joined by a
    blank line) has at most [threshold_chars] = 20000 characters is returned
    as exactly that text, whatever the query, and the call leaves the trace
    as it found it: no call of the embedding model, none of the index. *)
Theorem short_guide_returned_whole (w : world) (document : list box)
  (query : string) (tr : trace) :
  len (join (nl ++ nl) (map section_text document)) <= 20000 ->
  retrieve w document query tr
  = (join (nl ++ nl) (map section_text document), tr).
Proof.
  intros H. unfold retrieve, except_Exception, guide_text.
  unfold full_text, extract_sections, threshold_chars.
  apply Z.leb_le in H. rewrite H. reflexivity.
Qed.

Lemma short_guide_returned_whole_witness :
  retrieve Sample.installed
           [ {| title := Some "Intro"; body := Some "Welcome" |};
             {| title := None; body := Some "Boss strategy" |} ] "boss" []
  = ("Intro" ++ nl ++ "Welcome" ++ nl ++ nl ++ "Boss strategy", []).
Proof.
  apply (short_guide_returned_whole Sample.installed
           [ {| title := Some "Intro"; body := Some "Welcome" |};
             {| title := None; body := Some "Boss strategy" |} ] "boss" []).
  vm_compute. discriminate.
Defined.





(** C4. On a document with no section the call does not report that no
    section was found: the full text is the empty string, its length is
    within the threshold, and the empty string is the answer.  The message
    about missing subsections is returned only when the page has no
    container at all. *)
Theorem empty_document_returns_empty_string (w : world) (query : string)
  (tr : trace) :
  retrieve w [] query tr = ("", tr)
  /\ fetch_steam_guide Sample.installed "1" query tr = ("", tr)
  /\ fetch_steam_guide Sample.installed "2" query tr
     = ("Info: No subsections found for guide ID 2.", tr).
Proof. repeat split; reflexivity. Qed.

(** C2. The code at a document of one section of 20001 characters, with
    FAISS installed: the search is asked for [top_k] = 5 neighbours of an
    index of one vector, four result slots keep the label [-1], which as a
    Python list index is the last section, and the list [results] has five
    entries, all of them the one section; [min(top_k, section_count)] is
    1. *)
Theorem single_section_fills_five_slots :
  let text := Sample.chars (Z.to_nat 20001) "a"%char in
  extract_sections Sample.one_long = [text]
  /\ Nat.min top_k (List.length Sample.one_long) = 1%nat
  /\ fst (ranked Sample.installed [text] "boss" [])
     = Ok [ ((9 # 1)%Q, 0); (Faiss.FLT_MAX, -1); (Faiss.FLT_MAX, -1);
            (Faiss.FLT_MAX, -1); (Faiss.FLT_MAX, -1) ]
  /\ fst (results Sample.installed Sample.one_long "boss" [])
     = Ok [ entry (9 # 1) text; entry Faiss.FLT_MAX text;
            entry Faiss.FLT_MAX text; entry Faiss.FLT_MAX text;
            entry Faiss.FLT_MAX text ]
  /\ fst (retrieve Sample.installed Sample.one_long "boss" [])
     = join delimiter
         [ entry (9 # 1) text; entry Faiss.FLT_MAX text;
           entry Faiss.FLT_MAX text; entry Faiss.FLT_MAX text;
           entry Faiss.FLT_MAX text ].
Proof. repeat split; vm_compute; reflexivity. Qed.

(** C5. The code at a document of two sections, [a] of 10001 characters
    and [b] of 10002, with FAISS installed and a query at distance 4 from
    [b] and 9 from [a]: the answer has five entries separated by the
    delimiter; the first two are [b] with the score 4.00 and [a] with the
    score 9.00, and the other three are [b] again, each with the score of an
    unfilled slot, [FLT_MAX], which is not the distance of [b] and comes
    after the farther section [a]. *)
Theorem unfilled_slots_scored_FLT_MAX :
  let a := Sample.chars (Z.to_nat 10001) "a"%char in
  let b := Sample.chars (Z.to_nat 10002) "b"%char in
  extract_sections Sample.two_long = [a; b]
  /\ (Faiss.fvec_L2sqr (embed Sample.installed "boss")
                       (embed Sample.installed a) == 9)%Q
  /\ (Faiss.fvec_L2sqr (embed Sample.installed "boss")
                       (embed Sample.installed b) == 4)%Q
  /\ fst (retrieve Sample.installed Sample.two_long "boss" [])
     = join (nl ++ nl ++ "---" ++ nl ++ nl)
         [ "[Score: 4.00]" ++ nl ++ b;
           "[Score: 9.00]" ++ nl ++ a;
           "[Score: 340282346638528859811704183484516925440.00]" ++ nl ++ b;
           "[Score: 340282346638528859811704183484516925440.00]" ++ nl ++ b;
           "[Score: 340282346638528859811704183484516925440.00]" ++ nl ++ b ].
Proof. repeat split; vm_compute; reflexivity. Qed.

(** C8. The code at the same document: the index holds two vectors, the
    search for five neighbours reports the labels 1, 0, -1, -1, -1, and the
    entries built for the three labels -1, which are no position of the
    index, carry the text of the last section. *)
Theorem unfilled_slots_show_last_section :
  let a := Sample.chars (Z.to_nat 10001) "a"%char in
  let b := Sample.chars (Z.to_nat 10002) "b"%char in
  extract_sections Sample.two_long = [a; b]
  /\ Faiss.ntotal (built Sample.installed [a; b]) = 2%nat
  /\ fst (ranked Sample.installed [a; b] "boss" [])
     = Ok [ ((4 # 1)%Q, 1); ((9 # 1)%Q, 0); (Faiss.FLT_MAX, -1);
            (Faiss.FLT_MAX, -1); (Faiss.FLT_MAX, -1) ]
  /\ fst (results Sample.installed Sample.two_long "boss" [])
     = Ok [ "[Score: 4.00]" ++ nl ++ b;
            "[Score: 9.00]" ++ nl ++ a;
            "[Score: 340282346638528859811704183484516925440.00]" ++ nl ++ b;
            "[Score: 340282346638528859811704183484516925440.00]" ++ nl ++ b;
            "[Score: 340282346638528859811704183484516925440.00]" ++ nl ++ b ].
Proof. repeat split; vm_compute; reflexivity. Qed.

(** C9. The code at five inputs.  A failed fetch, a page without the
    container, a long guide without FAISS and an exception of the embedding
    model each come back as a text; a page whose container holds no section
    box comes back as the empty string, with nothing on stderr. *)
Theorem empty_container_gives_no_message :
  fetch_steam_guide Sample.installed "9" "boss" []
  = ("Error fetching guide: 404 Client Error: Not Found for url",
     [EvStderr
        "Error in fetch_steam_guide: 404 Client Error: Not Found for url"])
  /\ fetch_steam_guide Sample.installed "2" "boss" []
     = ("Info: No subsections found for guide ID 2.", [])
  /\ fst (retrieve Sample.missing Sample.one_long "boss" [])
     = "Error: FAISS library is required for large-guide search but is not installed."
  /\ fst (retrieve Sample.broken Sample.one_long "boss" [])
     = "Error fetching guide: CUDA out of memory"
  /\ Sample.pages "1" = Ok (Some [])
  /\ fetch_steam_guide Sample.installed "1" "boss" [] = ("", []).
Proof. repeat split; vm_compute; reflexivity. Qed.

(** ** The flat index: which vectors a search returns *)

Module FaissSelection.

Import Faiss FaissFacts.

Lemma insert_perm (h : hit) (l : list hit) : Permutation (insert h l) (h :: l).
Proof.
  induction l as [| x r IH]; simpl; [reflexivity |].
  destruct (cmp2 h x); [reflexivity |].
  rewrite IH. apply perm_swap.
Qed.

Lemma sort_perm (l : list hit) : Permutation (sort l) l.
Proof.
  induction l as [| h r IH]; simpl; [reflexivity |].
  rewrite insert_perm. constructor. exact IH.
Qed.

Lemma candidates_complete (q : vec) (ys : list vec) (j0 : Z) (j : nat)
  (y : vec) :
  nth_error ys j = Some y ->
  (fvec_L2sqr q y < FLT_MAX)%Q ->
  In (fvec_L2sqr q y, j0 + Z.of_nat j) (candidates j0 q ys).
Proof.
  revert j0 j. induction ys as [| x r IH]; intros j0 j Hj Hd.
  - destruct j; discriminate.
  - cbn [candidates]. destruct j as [| j]; simpl in Hj.
    + inversion Hj; subst x.
      destruct (Qcompare_spec (fvec_L2sqr q y) FLT_MAX) as [E | L | G];
        [lra | | lra].
      left. f_equal. simpl. lia.
    + assert (T : In (fvec_L2sqr q y, j0 + 1 + Z.of_nat j)
                     (candidates (j0 + 1) q r)) by (apply IH; assumption).
      replace (j0 + Z.of_nat (S j)) with (j0 + 1 + Z.of_nat j) by lia.
      destruct (Qcompare (fvec_L2sqr q x) FLT_MAX); simpl; auto.
Qed.

Lemma candidates_all (q : vec) (ys : list vec) (j0 : Z) :
  Forall (fun y => (fvec_L2sqr q y < FLT_MAX)%Q) ys ->
  List.length (candidates j0 q ys) = List.length ys.
Proof.
  intros H. revert j0. induction H as [| y r Hy Hr IH]; intros j0;
    [reflexivity |].
  cbn [candidates].
  destruct (Qcompare_spec (fvec_L2sqr q y) FLT_MAX) as [E | L | G];
    [lra | | lra].
  simpl. f_equal. apply IH.
Qed.

Lemma candidates_labels_NoDup (q : vec) (ys : list vec) (j0 : Z) :
  NoDup (map snd (candidates j0 q ys)).
Proof.
  revert j0. induction ys as [| y r IH]; intros j0; [constructor |].
  cbn [candidates].
  destruct (Qcompare (fvec_L2sqr q y) FLT_MAX); auto.
  simpl. constructor; [| apply IH].
  intros Hin. apply in_map_iff in Hin. destruct Hin as [x [Hx Hin]].
  apply candidates_spec in Hin. lia.
Qed.

Lemma StronglySorted_app_inv {A : Type} (R : A -> A -> Prop)
  (l1 l2 : list A) :
  StronglySorted R (l1 ++ l2) ->
  forall a b, In a l1 -> In b l2 -> R a b.
Proof.
  induction l1 as [| x l1 IH]; intros H a b Ha Hb; [destruct Ha |].
  simpl in H. inversion H as [| ? ? Hs Hf]; subst.
  destruct Ha as [-> | Ha].
  - rewrite Forall_forall in Hf. apply Hf, in_or_app. auto.
  - apply IH; assumption.
Qed.

(** A stored vector below [FLT_MAX] is in the result of a search, or every
    result slot is filled and comes before it. *)
Lemma search_nearest (index : IndexFlatL2) (q : vec) (k : nat) (x : hit) :
  In x (candidates 0 q (xb index)) ->
  In x (search index q k)
  \/ (forall h, In h (search index q k) -> cmp2 h x = true).
Proof.
  intros Hx. apply In_sort in Hx.
  pose proof (sort_candidates_sorted q (xb index) 0) as S.
  set (l := sort (candidates 0 q (xb index))) in *.
  rewrite <- (firstn_skipn k l) in Hx, S.
  apply in_app_or in Hx. destruct Hx as [Hx | Hx].
  - left. unfold search, knn. fold l. apply in_or_app. auto.
  - right. intros h Hh.
    assert (L : (k < List.length l)%nat).
    { destruct (Nat.lt_ge_cases k (List.length l)) as [L | L]; [exact L |].
      rewrite skipn_all2 in Hx by exact L. destruct Hx. }
    unfold search, knn in Hh. fold l in Hh.
    rewrite firstn_length_le in Hh by lia.
    rewrite Nat.sub_diag, app_nil_r in Hh.
    exact (StronglySorted_app_inv _ _ _ S h x Hh Hx).
Qed.

(** With at least [k] stored vectors, all below [FLT_MAX], every slot is
    filled, and by a different vector. *)
Lemma search_full (index : IndexFlatL2) (q : vec) (k : nat) :
  (k <= ntotal index)%nat ->
  Forall (fun y => (fvec_L2sqr q y < FLT_MAX)%Q) (xb index) ->
  search index q k = knn index q k
  /\ List.length (knn index q k) = k
  /\ NoDup (map snd (knn index q k)).
Proof.
  intros Hk Hall. unfold ntotal in Hk.
  assert (L : List.length (sort (candidates 0 q (xb index)))
              = List.length (xb index)).
  { rewrite (Permutation_length (sort_perm _)). apply candidates_all, Hall. }
  assert (Lk : List.length (knn index q k) = k)
    by (unfold knn; apply firstn_length_le; lia).
  repeat split; [| exact Lk |].
  - unfold search. rewrite Lk, Nat.sub_diag. apply app_nil_r.
  - unfold knn. rewrite <- firstn_map.
    apply NoDup_app_remove_r with (l' := skipn k (map snd (sort (candidates 0 q (xb index))))).
    rewrite firstn_skipn.
    eapply Permutation_NoDup;
      [apply Permutation_map, Permutation_sym, sort_perm |].
    apply candidates_labels_NoDup.
Qed.

End FaissSelection.

(** ** The search of [fetch_steam_guide]: calls made, sections chosen *)

Lemma ranked_trace (w : world) (sections : list string) (query : string)
  (tr : trace) :
  sections <> [] ->
  encode_error w sections = None ->
  encode_error w [query] = None ->
  ranked w sections query tr
  = (Ok (Faiss.search (built w sections) (embed w query) top_k),
     (tr ++ [ EvEncode sections;
              EvIndexFlatL2 (List.length (embed w (hd "" sections)));
              EvIndexAdd (List.length sections);
              EvEncode [query];
              EvIndexSearch top_k ])%list).
Proof.
  intros Hne Hs Hq. unfold ranked.
  rewrite (bind_ok _ _ _ _ _ (encode_ok w sections tr Hs)).
  destruct sections as [| s rest]; [congruence |].
  unfold lift at 1, bind at 1. cbn [map shape1].
  unfold emit at 1, bind at 1. unfold emit at 1, bind at 1.
  erewrite bind_ok by (apply encode_ok; exact Hq).
  cbn. rewrite length_map. repeat rewrite <- app_assoc. reflexivity.
Qed.

(** X1. In search mode a call makes exactly five external calls, in this
    order: one [encode] of all the sections, the construction of the index
    with the dimension of the first embedding, one [add] of as many vectors
    as the document has sections, one [encode] of the query alone, and one
    search for [top_k] = 5 neighbours. *)
Theorem search_mode_calls (w : world) (document : list box) (query : string)
  (tr : trace) :
  threshold_chars < len (full_text (extract_sections document)) ->
  faiss w = true ->
  encode_error w (extract_sections document) = None ->
  encode_error w [query] = None ->
  snd (retrieve w document query tr)
  = (tr ++ [ EvEncode (map section_text document);
             EvIndexFlatL2
               (List.length (embed w (hd "" (map section_text document))));
             EvIndexAdd (List.length document);
             EvEncode [query];
             EvIndexSearch 5 ])%list.
Proof.
  intros Hlong Hf Hs Hq.
  destruct (search_mode w document query tr Hlong Hf Hs Hq)
    as (hits & rs & tr' & _ & Hr & _ & Hret & _).
  rewrite Hret. simpl.
  rewrite (ranked_trace w _ query tr (long_nonempty _ Hlong) Hs Hq) in Hr.
  inversion Hr as [[Hh Ht]].
  unfold extract_sections. rewrite length_map. reflexivity.
Qed.

Lemma search_mode_calls_witness :
  snd (retrieve Sample.installed Sample.six_long "boss" [])
  = ([] ++ [ EvEncode (map section_text Sample.six_long);
             EvIndexFlatL2
               (List.length (embed Sample.installed
                               (hd "" (map section_text Sample.six_long))));
             EvIndexAdd (List.length Sample.six_long);
             EvEncode ["boss"];
             EvIndexSearch 5 ])%list.
Proof.
  apply (search_mode_calls Sample.installed Sample.six_long "boss" []).
  - vm_compute. reflexivity.
  - reflexivity.
  - reflexivity.
  - reflexivity.
Defined.

(** X2. When the embedding model raises on the sections of a long guide,
    the answer is the error text with the message of the exception, and
    the call has made one [encode] and written one line to stderr: no index
    is built and the query is not embedded. *)
Theorem embedding_failure_stops_search (w : world) (document : list box)
  (query e : string) (tr : trace) :
  threshold_chars < len (full_text (extract_sections document)) ->
  faiss w = true ->
  encode_error w (extract_sections document) = Some e ->
  retrieve w document query tr
  = ("Error fetching guide: " ++ e,
     (tr ++ [ EvEncode (extract_sections document);
              EvStderr ("Error in fetch_steam_guide: " ++ e) ])%list).
Proof.
  intros Hlong Hf He.
  unfold retrieve, except_Exception.
  rewrite (guide_text_long _ _ _ Hlong), Hf. cbn [negb].
  unfold search_sections, ranked.
  erewrite bind_raised;
    [| erewrite bind_raised; [reflexivity | apply encode_fails; exact He]].
  rewrite <- app_assoc. reflexivity.
Qed.

Lemma embedding_failure_stops_search_witness :
  retrieve Sample.broken Sample.one_long "boss" []
  = ("Error fetching guide: " ++ "CUDA out of memory",
     ([] ++ [ EvEncode (extract_sections Sample.one_long);
              EvStderr ("Error in fetch_steam_guide: "
                          ++ "CUDA out of memory") ])%list).
Proof.
  apply (embedding_failure_stops_search Sample.broken Sample.one_long
           "boss" "CUDA out of memory" []).
  - vm_compute. reflexivity.
  - reflexivity.
  - reflexivity.
Defined.

(** X3. The search returns nearest sections: in search mode, a section
    whose distance to the query is below [FLT_MAX] either has a result slot,
    or every slot holds a section (no slot is unfilled) that is at most as
    far from the query as it. *)
Theorem nearest_sections_returned (w : world) (document : list box)
  (query : string) (tr : trace) :
  threshold_chars < len (full_text (extract_sections document)) ->
  faiss w = true ->
  encode_error w (extract_sections document) = None ->
  encode_error w [query] = None ->
  exists hits,
    fst (ranked w (extract_sections document) query tr) = Ok hits
    /\ forall (j : nat) (s : string),
         nth_error (extract_sections document) j = Some s ->
         (Faiss.fvec_L2sqr (embed w query) (embed w s) < Faiss.FLT_MAX)%Q ->
         In (Faiss.fvec_L2sqr (embed w query) (embed w s), Z.of_nat j) hits
         \/ Forall (fun h =>
                      (fst h <= Faiss.fvec_L2sqr (embed w query) (embed w s))%Q
                      /\ 0 <= snd h) hits.
Proof.
  intros Hlong Hf Hs Hq.
  destruct (search_mode w document query tr Hlong Hf Hs Hq)
    as (hits & rs & tr' & Hh & Hr & _).
  exists hits. rewrite Hr. split; [reflexivity |].
  intros j s Hj Hd.
  set (index := built w (extract_sections document)) in *.
  assert (Hc : In (Faiss.fvec_L2sqr (embed w query) (embed w s),
                   0 + Z.of_nat j)
                  (Faiss.candidates 0 (embed w query) (Faiss.xb index))).
  { apply FaissSelection.candidates_complete; [| exact Hd].
    unfold index, built. simpl. apply map_nth_error. exact Hj. }
  rewrite Z.add_0_l in Hc.
  destruct (FaissSelection.search_nearest index (embed w query) top_k _ Hc)
    as [Hin | Hall].
  - left. rewrite Hh. exact Hin.
  - right. apply Forall_forall. intros h Hin. rewrite Hh in Hin.
    pose proof (Hall h Hin) as C. apply FaissFacts.cmp2_lt in C. simpl in C.
    split; [destruct C as [C | [C _]]; lra |].
    destruct (FaissFacts.search_labels _ _ _ _ Hin) as [E | R]; [| lia].
    (* an unfilled slot is at FLT_MAX, beyond the section *)
    exfalso. unfold Faiss.search in Hin. apply in_app_or in Hin.
    destruct Hin as [Hin | Hin].
    + apply FaissFacts.knn_spec in Hin. lia.
    + apply repeat_spec in Hin. subst h. simpl in C.
      destruct C as [C | [C _]]; lra.
Qed.

Lemma nearest_sections_returned_witness :
  exists hits,
    fst (ranked Sample.installed (extract_sections Sample.six_long)
           "boss" []) = Ok hits
    /\ forall (j : nat) (s : string),
         nth_error (extract_sections Sample.six_long) j = Some s ->
         (Faiss.fvec_L2sqr (embed Sample.installed "boss")
                           (embed Sample.installed s) < Faiss.FLT_MAX)%Q ->
         In (Faiss.fvec_L2sqr (embed Sample.installed "boss")
                              (embed Sample.installed s), Z.of_nat j) hits
         \/ Forall (fun h =>
                      (fst h <= Faiss.fvec_L2sqr
                                  (embed Sample.installed "boss")
                                  (embed Sample.installed s))%Q
                      /\ 0 <= snd h) hits.
Proof.
  apply (nearest_sections_returned Sample.installed Sample.six_long
           "boss" []).
  - vm_compute. reflexivity.
  - reflexivity.
  - reflexivity.
  - reflexivity.
Defined.

(** X4. With at least [top_k] = 5 sections, all at a distance below
    [FLT_MAX] from the query, the five result slots hold five different
    sections of the document, and the answer has five entries. *)
Theorem five_different_sections (w : world) (document : list box)
  (query : string) (tr : trace) :
  threshold_chars < len (full_text (extract_sections document)) ->
  faiss w = true ->
  encode_error w (extract_sections document) = None ->
  encode_error w [query] = None ->
  (5 <= List.length document)%nat ->
  Forall (fun s => (Faiss.fvec_L2sqr (embed w query) (embed w s)
                    < Faiss.FLT_MAX)%Q) (extract_sections document) ->
  exists hits rs,
    fst (ranked w (extract_sections document) query tr) = Ok hits
    /\ fst (results w document query tr) = Ok rs
    /\ List.length hits = 5%nat /\ List.length rs = 5%nat
    /\ NoDup (map snd hits)
    /\ Forall (fun h => 0 <= snd h < Z.of_nat (List.length document)) hits.
Proof.
  intros Hlong Hf Hs Hq Hn Hall.
  destruct (search_mode w document query tr Hlong Hf Hs Hq)
    as (hits & rs & tr' & Hh & Hr & Hres & _ & HF).
  set (index := built w (extract_sections document)) in *.
  assert (Hlen : List.length (extract_sections document)
                 = List.length document)
    by (unfold extract_sections; apply length_map).
  destruct (FaissSelection.search_full index (embed w query) top_k)
    as (Hfull & Hk & Hnd).
  { unfold index. rewrite ntotal_built, Hlen. exact Hn. }
  { unfold index, built. simpl. apply Forall_forall. intros y Hy.
    apply in_map_iff in Hy. destruct Hy as [s [<- Hin]].
    rewrite Forall_forall in Hall. apply Hall, Hin. }
  exists hits, rs. rewrite Hr, Hres.
  assert (L : List.length hits = 5%nat)
    by (rewrite Hh; apply FaissFacts.search_length).
  repeat split; auto.
  - apply Forall2_length in HF. rewrite <- HF. exact L.
  - rewrite Hh, Hfull. exact Hnd.
  - apply Forall_forall. intros h Hin. rewrite Hh, Hfull in Hin.
    apply FaissFacts.knn_spec in Hin. unfold index in Hin.
    rewrite ntotal_built, Hlen in Hin. tauto.
Qed.

Lemma five_different_sections_witness :
  exists hits rs,
    fst (ranked Sample.installed (extract_sections Sample.six_long)
           "boss" []) = Ok hits
    /\ fst (results Sample.installed Sample.six_long "boss" []) = Ok rs
    /\ List.length hits = 5%nat /\ List.length rs = 5%nat
    /\ NoDup (map snd hits)
    /\ Forall (fun h => 0 <= snd h
                        < Z.of_nat (List.length Sample.six_long)) hits.
Proof.
  apply (five_different_sections Sample.installed Sample.six_long "boss" []).
  - vm_compute. reflexivity.
  - reflexivity.
  - reflexivity.
  - reflexivity.
  - vm_compute. repeat constructor.
  - repeat constructor; vm_compute; reflexivity.
Defined.

(** ** The threshold in terms of the sections *)

Lemma length_append (a b : string) :
  String.length (a ++ b) = (String.length a + String.length b)%nat.
Proof. induction a as [| c a IH]; simpl; [reflexivity | rewrite IH; reflexivity]. Qed.

Lemma len_append (a b : string) : len (a ++ b) = len a + len b.
Proof. unfold len. rewrite length_append. lia. Qed.

Lemma len_join (sep : string) (parts : list string) :
  len (join sep parts)
  = fold_right Z.add 0 (map len parts)
    + len sep * Z.of_nat (pred (List.length parts)).
Proof.
  unfold join. induction parts as [| x rest IH]; [simpl; unfold len; simpl; lia |].
  destruct rest as [| y rest'].
  - simpl. lia.
  - change (String.concat sep (x :: y :: rest'))
      with (x ++ sep ++ String.concat sep (y :: rest')).
    rewrite !len_append, IH.
    cbn [map fold_right List.length pred]. lia.
Qed.

Lemma len_section_text (b : box) : len (section_text b) = box_chars b.
Proof.
  unfold section_text, box_chars. rewrite len_append.
  destruct (title b), (body b); rewrite ?len_append; reflexivity.
Qed.

(** X5. The length that [fetch_steam_guide] compares with the threshold is
    the number of characters of the titles, one for the newline after each
    title, the characters of the bodies, and two for each blank line between
    sections: a guide of [n] sections is returned whole when this sum with
    [2 (n - 1)] is at most 20000. *)
Theorem full_text_length (document : list box) :
  len (full_text (extract_sections document))
  = fold_right Z.add 0 (map box_chars document)
    + 2 * Z.of_nat (pred (List.length document)).
Proof.
  unfold full_text, extract_sections. rewrite len_join.
  rewrite length_map, map_map. f_equal.
  f_equal. apply map_ext. apply len_section_text.
Qed.

(** ** The tool [search_steam_guides] *)

Module SearchFacts.

Import Text Search.

Lemma digits_prefix_app (ds rest : string) :
  all_digits ds = true -> digits_prefix (ds ++ rest) = ds ++ digits_prefix rest.
Proof.
  induction ds as [| c ds IH]; simpl; [reflexivity |].
  intros H. apply andb_true_iff in H. destruct H as [Hc Hds].
  rewrite Hc, IH by exact Hds. reflexivity.
Qed.

Lemma append_empty_r (s : string) : s ++ "" = s.
Proof. induction s as [| c s IH]; simpl; [| rewrite IH]; reflexivity. Qed.

Lemma contains_char_app (c : ascii) (a b : string) :
  contains_char c (a ++ b) = contains_char c a || contains_char c b.
Proof.
  induction a as [| x a IH]; simpl; [reflexivity |].
  rewrite IH. apply orb_assoc.
Qed.

Lemma digits_no_space (s : string) :
  all_digits s = true -> contains_char " " s = false.
Proof.
  induction s as [| c s IH]; simpl; [reflexivity |].
  intros H. apply andb_true_iff in H. destruct H as [Hc Hs].
  rewrite (IH Hs), orb_false_r.
  destruct (Ascii.eqb_spec c " "%char) as [-> | _]; [discriminate | reflexivity].
Qed.

Lemma str_int_no_space (z : Z) : contains_char " " (str_int z) = false.
Proof.
  unfold str_int. destruct (z <? 0); simpl;
    apply digits_no_space, decimal_digits.
Qed.

Lemma replace_space_no_space (s : string) :
  contains_char " " (replace_space s) = false.
Proof.
  induction s as [| c s IH]; simpl; [reflexivity |].
  rewrite IH, orb_false_r.
  destruct (Ascii.eqb_spec c " "%char) as [-> | N]; [reflexivity |].
  apply Ascii.eqb_neq. exact N.
Qed.

Lemma entry_of_index (i j : Z) (el : element) (e : string) :
  entry_of i el = Raised e -> entry_of j el = Raised e.
Proof.
  unfold entry_of.
  destruct (anchor el) as [[link |] |]; auto.
  destruct (item_title el); auto.
  destruct (item_desc el); auto. discriminate.
Qed.

Lemma entries_from_complete (items : list element) (idx : Z) :
  Forall complete items ->
  exists es,
    entries_from idx items = Ok es
    /\ List.length es = List.length items
    /\ forall (i : nat) (el : element),
         nth_error items i = Some el ->
         exists link t desc,
           anchor el = Some (Some link)
           /\ item_title el = Some t /\ item_desc el = Some desc
           /\ nth_error es i
              = Some (str_int (idx + Z.of_nat i) ++ ". ID: "
                        ++ guide_id_of link ++ nl
                        ++ "   Name: " ++ t ++ nl
                        ++ "   Description: " ++ desc).
Proof.
  intros H. revert idx. induction H as [| el rest Hel Hrest IH]; intros idx.
  - exists []. repeat split. intros [| i] el H; discriminate.
  - destruct (IH (idx + 1)) as (es & Hes & Hlen & Hnth).
    destruct Hel as ([link Ha] & Ht & Hd).
    destruct (item_title el) as [t |] eqn:Et; [| congruence].
    destruct (item_desc el) as [desc |] eqn:Ed; [| congruence].
    eexists. cbn [entries_from]. unfold entry_of.
    rewrite Ha, Et, Ed. cbn [and_then]. rewrite Hes. cbn [and_then].
    split; [reflexivity |]. split; [simpl; congruence |].
    intros [| i] el' Hi; simpl in Hi.
    + inversion Hi; subst el'. exists link, t, desc.
      rewrite Ha, Et, Ed, Z.add_0_r. repeat split.
    + destruct (Hnth i el' Hi) as (l' & t' & d' & A & B & C & D).
      exists l', t', d'. repeat split; auto.
      simpl. rewrite D. do 2 f_equal. f_equal. lia.
Qed.

Lemma entries_from_raises (good rest : list element) (bad : element)
  (e : string) (idx : Z) :
  Forall complete good ->
  entry_of idx bad = Raised e ->
  entries_from idx (good ++ bad :: rest) = Raised e.
Proof.
  intros H. revert idx. induction H as [| el good' Hel Hgood IH];
    intros idx Hbad.
  - simpl. rewrite Hbad. reflexivity.
  - destruct Hel as ([link Ha] & Ht & Hd).
    destruct (item_title el) as [t |] eqn:Et; [| congruence].
    destruct (item_desc el) as [desc |] eqn:Ed; [| congruence].
    cbn [app entries_from]. unfold entry_of at 1.
    rewrite Ha, Et, Ed. cbn [and_then].
    rewrite (IH (idx + 1) (entry_of_index _ _ _ _ Hbad)). reflexivity.
Qed.

End SearchFacts.

Import Text Search SearchFacts.

(** X6. The id that [search_steam_guides] prints for a result is the one
    that [fetch_steam_guide] asks for: from the link that
    [fetch_steam_guide] builds for a guide id made of digits, followed by
    anything that does not start with a digit (nothing, or further query
    parameters), line 206 extracts that guide id. *)
Theorem guide_id_of_guide_url (guide_id rest : string) :
  all_digits guide_id = true ->
  guide_id <> "" ->
  digits_prefix rest = "" ->
  guide_id_of (guide_url guide_id ++ rest) = guide_id.
Proof.
  intros Hd Hne Hr. unfold guide_id_of, guide_url.
  cbn [append search_id match_id]. rewrite (digits_prefix_app _ _ Hd), Hr.
  rewrite append_empty_r.
  destruct guide_id as [| c r]; [congruence | reflexivity].
Qed.

Lemma guide_id_of_guide_url_witness :
  guide_id_of (guide_url "3442001994" ++ "&searchtext=boss") = "3442001994".
Proof.
  apply (guide_id_of_guide_url "3442001994" "&searchtext=boss").
  - reflexivity.
  - discriminate.
  - reflexivity.
Defined.

(** X7. The URL of the guides page that the tool requests contains no
    space, whatever the query: each space of the query has become a plus
    sign. *)
Theorem base_url_has_no_space (app_id : Z) (query : string) :
  contains_char " " (base_url app_id query) = false.
Proof.
  unfold base_url. rewrite !contains_char_app.
  rewrite str_int_no_space, replace_space_no_space. reflexivity.
Qed.

(** X8. When the page lists guides and the first ten are complete (an
    anchor with a link, a title, a description), the answer is a header
    line with the number of guides listed, which is at most ten, followed
    by one entry per guide, in the order of the page and numbered from 1,
    each with the id extracted from its link. *)
Theorem complete_guides_listed (w : Search.world) (app_id : Z)
  (query : string) (found : list element) :
  html_items w (base_url app_id query) = Ok found ->
  found <> [] ->
  Forall complete (firstn 10 found) ->
  exists es,
    search_steam_guides w app_id query
    = join nl (("Top " ++ str_int (Z.of_nat (Nat.min 10 (List.length found)))
                  ++ " guides for '" ++ query ++ "':") :: es)
    /\ List.length es = Nat.min 10 (List.length found)
    /\ forall (i : nat) (el : element),
         (i < 10)%nat ->
         nth_error found i = Some el ->
         exists link t desc,
           anchor el = Some (Some link)
           /\ item_title el = Some t /\ item_desc el = Some desc
           /\ nth_error es i
              = Some (str_int (1 + Z.of_nat i) ++ ". ID: "
                        ++ guide_id_of link ++ nl
                        ++ "   Name: " ++ t ++ nl
                        ++ "   Description: " ++ desc).
Proof.
  intros Hw Hne Hc.
  destruct (entries_from_complete (firstn 10 found) 1 Hc)
    as (es & Hes & Hlen & Hnth).
  exists es. rewrite length_firstn in Hlen.
  split; [| split; [exact Hlen |]].
  - unfold search_steam_guides, try_search. rewrite Hw. cbn [and_then].
    destruct (firstn 10 found) as [| el items] eqn:E.
    { destruct found; [congruence | discriminate]. }
    cbn [and_then]. rewrite Hes. cbn [and_then]. unfold header.
    assert (L : List.length (el :: items) = Nat.min 10 (List.length found))
      by (rewrite <- E; apply length_firstn).
    rewrite L. reflexivity.
  - intros i el Hi Hel. apply Hnth.
    rewrite <- (firstn_skipn 10 found) in Hel.
    rewrite nth_error_app1 in Hel; [exact Hel |].
    rewrite length_firstn.
    assert (i < List.length found)%nat
      by (apply nth_error_Some; rewrite <- (firstn_skipn 10 found);
          congruence).
    lia.
Qed.

Lemma complete_guides_listed_witness :
  exists es,
    search_steam_guides
      (SampleTools.listing (firstn 11 SampleTools.twelve)) 730 "boss fight"
    = join nl (("Top " ++ str_int (Z.of_nat (Nat.min 10
                  (List.length (firstn 11 SampleTools.twelve))))
                  ++ " guides for '" ++ "boss fight" ++ "':") :: es)
    /\ List.length es
       = Nat.min 10 (List.length (firstn 11 SampleTools.twelve))
    /\ forall (i : nat) (el : element),
         (i < 10)%nat ->
         nth_error (firstn 11 SampleTools.twelve) i = Some el ->
         exists link t desc,
           anchor el = Some (Some link)
           /\ item_title el = Some t /\ item_desc el = Some desc
           /\ nth_error es i
              = Some (str_int (1 + Z.of_nat i) ++ ". ID: "
                        ++ guide_id_of link ++ nl
                        ++ "   Name: " ++ t ++ nl
                        ++ "   Description: " ++ desc).
Proof.
  apply (complete_guides_listed
           (SampleTools.listing (firstn 11 SampleTools.twelve)) 730
           "boss fight" (firstn 11 SampleTools.twelve)).
  - reflexivity.
  - discriminate.
  - repeat constructor; try (eexists; reflexivity); discriminate.
Defined.

(** X9. Only the first ten elements of the page count, and the JSON API is
    not consulted when the page lists something: two worlds whose pages
    agree on their first ten elements, of which there is at least one, get
    the same answer, whatever else the pages list and whatever their JSON
    APIs return. *)
Theorem first_ten_decide (w w' : Search.world) (app_id : Z) (query : string)
  (found found' : list element) :
  html_items w (base_url app_id query) = Ok found ->
  html_items w' (base_url app_id query) = Ok found' ->
  firstn 10 found = firstn 10 found' ->
  found <> [] ->
  search_steam_guides w app_id query = search_steam_guides w' app_id query.
Proof.
  intros Hw Hw' Heq Hne.
  unfold search_steam_guides, try_search. rewrite Hw, Hw'. cbn [and_then].
  rewrite <- Heq.
  destruct (firstn 10 found) as [| el items] eqn:E; [| reflexivity].
  destruct found; [congruence | discriminate].
Qed.

Lemma first_ten_decide_witness :
  search_steam_guides (SampleTools.listing SampleTools.twelve) 730 "boss"
  = search_steam_guides
      (SampleTools.listing_with_fallback (firstn 10 SampleTools.twelve))
      730 "boss".
Proof.
  apply (first_ten_decide (SampleTools.listing SampleTools.twelve)
           (SampleTools.listing_with_fallback (firstn 10 SampleTools.twelve))
           730 "boss" SampleTools.twelve (firstn 10 SampleTools.twelve)).
  - reflexivity.
  - reflexivity.
  - reflexivity.
  - discriminate.
Defined.

(** X10. One element among the first ten that the loop cannot format (no
    anchor, no link, no title or no description) replaces the whole list by
    the error text with the message of its exception: the guides before it
    are not shown. *)
Theorem incomplete_guide_discards_list (w : Search.world) (app_id : Z)
  (query e : string) (found good rest : list element) (bad : element) :
  html_items w (base_url app_id query) = Ok found ->
  firstn 10 found = (good ++ bad :: rest)%list ->
  Forall complete good ->
  entry_of 1 bad = Raised e ->
  search_steam_guides w app_id query
  = "Error searching guides for '" ++ query ++ "' (AppID "
      ++ str_int app_id ++ "): " ++ e.
Proof.
  intros Hw Hf Hg Hb.
  unfold search_steam_guides, try_search. rewrite Hw. cbn [and_then].
  rewrite Hf.
  assert (R : entries_from 1 (good ++ bad :: rest) = Raised e)
    by (apply entries_from_raises;
        [exact Hg | exact (entry_of_index _ _ _ _ Hb)]).
  destruct (good ++ bad :: rest)%list as [| el items] eqn:E.
  { destruct good; discriminate. }
  cbn [and_then]. rewrite R. reflexivity.
Qed.

Lemma incomplete_guide_discards_list_witness :
  search_steam_guides
    (SampleTools.listing
       [SampleTools.container 101; SampleTools.untitled;
        SampleTools.container 102]) 730 "boss"
  = "Error searching guides for '" ++ "boss" ++ "' (AppID "
      ++ str_int 730 ++ "): "
      ++ "'NoneType' object has no attribute 'get_text'".
Proof.
  apply (incomplete_guide_discards_list
           (SampleTools.listing
              [SampleTools.container 101; SampleTools.untitled;
               SampleTools.container 102]) 730 "boss"
           "'NoneType' object has no attribute 'get_text'"
           [SampleTools.container 101; SampleTools.untitled;
            SampleTools.container 102]
           [SampleTools.container 101] [SampleTools.container 102]
           SampleTools.untitled).
  - reflexivity.
  - reflexivity.
  - repeat constructor; try (eexists; reflexivity); discriminate.
  - reflexivity.
Defined.

(** ** The tools [get_owned_games] and [get_recently_played_games] *)

Module LibraryFacts.

Import Library.

Lemma credentials_set (w : Library.world) (k i : string) :
  Library.API_KEY w = Some k -> k <> "" ->
  Library.STEAM_ID w = Some i -> i <> "" ->
  credentials w = Some (k, i).
Proof.
  intros Hk Nk Hi Ni. unfold credentials. rewrite Hk, Hi.
  destruct k; [congruence |]. destruct i; [congruence |]. reflexivity.
Qed.

Lemma credentials_unset (w : Library.world) :
  unset (Library.API_KEY w) || unset (Library.STEAM_ID w) = true ->
  credentials w = None.
Proof. intros H. unfold credentials. rewrite H. reflexivity. Qed.

Lemma comprehension_ok {A B : Type} (f : A -> outcome B) (xs : list A) :
  Forall (fun x => exists y, f x = Ok y) xs ->
  exists ys, comprehension f xs = Ok ys
             /\ Forall2 (fun x y => f x = Ok y) xs ys.
Proof.
  induction 1 as [| x rest [y Hy] Hrest [ys [Hys HF]]].
  - exists []. split; [reflexivity | constructor].
  - exists (y :: ys). simpl. rewrite Hy, Hys. simpl.
    split; [reflexivity | constructor; assumption].
Qed.

Lemma comprehension_raises {A B : Type} (f : A -> outcome B)
  (good rest : list A) (bad : A) (e : string) :
  Forall (fun x => exists y, f x = Ok y) good ->
  f bad = Raised e ->
  comprehension f (good ++ bad :: rest) = Raised e.
Proof.
  intros Hg Hb. induction Hg as [| x good' [y Hy] Hgood IH]; simpl.
  - rewrite Hb. reflexivity.
  - rewrite Hy. simpl. rewrite IH. reflexivity.
Qed.

Lemma owned_line_ok (g : game) :
  has_keys ["name"; "appid"; "playtime_forever"] g ->
  exists name appid mins,
    subscript g "name" = Ok name /\ subscript g "appid" = Ok appid
    /\ subscript g "playtime_forever" = Ok mins
    /\ owned_line g
       = Ok (name ++ " (AppID: " ++ appid ++ ") - Playtime: " ++ mins
               ++ " mins").
Proof.
  intros H.
  destruct (H "name") as [name Hn]; [simpl; auto |].
  destruct (H "appid") as [appid Ha]; [simpl; auto |].
  destruct (H "playtime_forever") as [mins Hm]; [simpl; auto |].
  exists name, appid, mins. unfold owned_line. rewrite Hn, Ha, Hm.
  repeat split.
Qed.

Lemma recent_line_ok (g : game) :
  has_keys ["name"; "appid"; "playtime_2weeks"] g ->
  exists name appid mins,
    subscript g "name" = Ok name /\ subscript g "appid" = Ok appid
    /\ subscript g "playtime_2weeks" = Ok mins
    /\ recent_line g
       = Ok (name ++ " (AppID: " ++ appid ++ ") - Played " ++ mins
               ++ " mins in last 2 weeks").
Proof.
  intros H.
  destruct (H "name") as [name Hn]; [simpl; auto |].
  destruct (H "appid") as [appid Ha]; [simpl; auto |].
  destruct (H "playtime_2weeks") as [mins Hm]; [simpl; auto |].
  exists name, appid, mins. unfold recent_line. rewrite Hn, Ha, Hm.
  repeat split.
Qed.

End LibraryFacts.

(** X11. With [API_KEY] or [STEAM_ID] unset, or set to the empty string,
    both tools answer that environment variables are missing, whatever the
    Steam API would return, and write nothing to stderr. *)
Theorem missing_credentials_reported (w : Library.world) (tr : trace) :
  unset (Library.API_KEY w) || unset (Library.STEAM_ID w) = true ->
  Library.get_owned_games w tr
  = ("Error: Missing environment variables API_KEY or STEAM_ID.", tr)
  /\ Library.get_recently_played_games w tr
     = ("Error: Missing environment variables API_KEY or STEAM_ID.", tr).
Proof.
  intros H. apply LibraryFacts.credentials_unset in H.
  unfold Library.get_owned_games, Library.get_recently_played_games,
    Library.reporting, Library.owned_body, Library.recent_body.
  rewrite H. split; reflexivity.
Qed.

Lemma missing_credentials_reported_witness :
  Library.get_owned_games SampleTools.no_steam_id []
  = ("Error: Missing environment variables API_KEY or STEAM_ID.", [])
  /\ Library.get_recently_played_games SampleTools.no_steam_id []
     = ("Error: Missing environment variables API_KEY or STEAM_ID.", []).
Proof.
  apply (missing_credentials_reported SampleTools.no_steam_id []).
  reflexivity.
Defined.

(** X12. When every game of the response has a name, an appid and a
    playtime, [get_owned_games] answers with a header giving the number of
    games and one line per game, in the order of the response, none left
    out; nothing goes to stderr. *)
Theorem owned_games_listed (w : Library.world) (k i : string)
  (games : list Library.game) (tr : trace) :
  Library.API_KEY w = Some k -> k <> "" ->
  Library.STEAM_ID w = Some i -> i <> "" ->
  Library.GetOwnedGames w k i = Ok games ->
  Forall (Library.has_keys ["name"; "appid"; "playtime_forever"]) games ->
  exists lines,
    Library.get_owned_games w tr
    = (join nl (("Total games owned: "
                   ++ str_int (Z.of_nat (List.length games))) :: lines), tr)
    /\ Forall2 (fun g line =>
                  exists name appid mins,
                    Library.subscript g "name" = Ok name
                    /\ Library.subscript g "appid" = Ok appid
                    /\ Library.subscript g "playtime_forever" = Ok mins
                    /\ line = name ++ " (AppID: " ++ appid
                                ++ ") - Playtime: " ++ mins ++ " mins")
               games lines.
Proof.
  intros Hk Nk Hi Ni Hg Hkeys.
  destruct (LibraryFacts.comprehension_ok Library.owned_line games)
    as (lines & Hl & HF).
  { eapply Forall_impl; [| exact Hkeys]. intros g H.
    destruct (LibraryFacts.owned_line_ok g H) as (n & a & m & _ & _ & _ & E).
    eauto. }
  exists lines. split.
  - unfold Library.get_owned_games, Library.reporting, Library.owned_body.
    rewrite (LibraryFacts.credentials_set w k i Hk Nk Hi Ni).
    unfold bind, lift, ret. rewrite Hg, Hl. reflexivity.
  - clear - HF Hkeys. induction HF as [| g line gs ls Hgl HF' IH];
      constructor.
    + inversion Hkeys as [| ? ? Hkg _]; subst.
      destruct (LibraryFacts.owned_line_ok g Hkg)
        as (n & a & m & Hn & Ha & Hm & E).
      exists n, a, m. repeat split; auto. congruence.
    + apply IH. inversion Hkeys; assumption.
Qed.

Lemma owned_games_listed_witness :
  exists lines,
    Library.get_owned_games
      (SampleTools.account [SampleTools.portal; SampleTools.portal]) []
    = (join nl (("Total games owned: "
                   ++ str_int (Z.of_nat (List.length
                                 [SampleTools.portal; SampleTools.portal])))
                  :: lines), [])
    /\ Forall2 (fun g line =>
                  exists name appid mins,
                    Library.subscript g "name" = Ok name
                    /\ Library.subscript g "appid" = Ok appid
                    /\ Library.subscript g "playtime_forever" = Ok mins
                    /\ line = name ++ " (AppID: " ++ appid
                                ++ ") - Playtime: " ++ mins ++ " mins")
               [SampleTools.portal; SampleTools.portal] lines.
Proof.
  apply (owned_games_listed
           (SampleTools.account [SampleTools.portal; SampleTools.portal])
           "KEY" "7656" [SampleTools.portal; SampleTools.portal] []).
  - reflexivity.
  - discriminate.
  - reflexivity.
  - discriminate.
  - reflexivity.
  - repeat constructor;
      intros key [<- | [<- | [<- | []]]]; eexists; reflexivity.
Defined.

(** X13. One game of the response without one of the keys replaces the
    whole list of [get_owned_games] by the error text with the message of
    the KeyError, which is also written to stderr: the games before it are
    not shown. *)
Theorem game_without_key_discards_list (w : Library.world) (k i e : string)
  (good rest : list Library.game) (bad : Library.game) (tr : trace) :
  Library.API_KEY w = Some k -> k <> "" ->
  Library.STEAM_ID w = Some i -> i <> "" ->
  Library.GetOwnedGames w k i = Ok (good ++ bad :: rest)%list ->
  Forall (Library.has_keys ["name"; "appid"; "playtime_forever"]) good ->
  Library.owned_line bad = Raised e ->
  Library.get_owned_games w tr
  = ("Error fetching owned games: " ++ e,
     (tr ++ [EvStderr ("Error in get_owned_games: " ++ e)])%list).
Proof.
  intros Hk Nk Hi Ni Hg Hkeys Hb.
  unfold Library.get_owned_games, Library.reporting, Library.owned_body.
  rewrite (LibraryFacts.credentials_set w k i Hk Nk Hi Ni).
  unfold bind, lift, ret. rewrite Hg.
  rewrite (LibraryFacts.comprehension_raises Library.owned_line good rest
             bad e); [reflexivity | | exact Hb].
  eapply Forall_impl; [| exact Hkeys]. intros g H.
  destruct (LibraryFacts.owned_line_ok g H) as (n & a & m & _ & _ & _ & E).
  eauto.
Qed.

Lemma game_without_key_discards_list_witness :
  Library.get_owned_games
    (SampleTools.account [SampleTools.portal; SampleTools.nameless]) []
  = ("Error fetching owned games: " ++ "'name'",
     ([] ++ [EvStderr ("Error in get_owned_games: " ++ "'name'")])%list).
Proof.
  apply (game_without_key_discards_list
           (SampleTools.account [SampleTools.portal; SampleTools.nameless])
           "KEY" "7656" "'name'" [SampleTools.portal] []
           SampleTools.nameless []).
  - reflexivity.
  - discriminate.
  - reflexivity.
  - discriminate.
  - reflexivity.
  - repeat constructor;
      intros key [<- | [<- | [<- | []]]]; eexists; reflexivity.
  - reflexivity.
Defined.

(** X14. [get_recently_played_games] answers that no game was played in the
    last two weeks when the response has no game, and otherwise, when every
    game has a name, an appid and a two-week playtime, with a header giving
    the number of games and one line per game in the order of the
    response. *)
Theorem recent_games_listed (w : Library.world) (k i : string)
  (games : list Library.game) (tr : trace) :
  Library.API_KEY w = Some k -> k <> "" ->
  Library.STEAM_ID w = Some i -> i <> "" ->
  Library.GetRecentlyPlayedGames w k i = Ok games ->
  Forall (Library.has_keys ["name"; "appid"; "playtime_2weeks"]) games ->
  exists lines,
    Library.get_recently_played_games w tr
    = (match games with
       | [] => "No games played in the last two weeks."
       | _ => join nl (("Recently played games ("
                          ++ str_int (Z.of_nat (List.length games))
                          ++ " found):") :: lines)
       end, tr)
    /\ Forall2 (fun g line =>
                  exists name appid mins,
                    Library.subscript g "name" = Ok name
                    /\ Library.subscript g "appid" = Ok appid
                    /\ Library.subscript g "playtime_2weeks" = Ok mins
                    /\ line = name ++ " (AppID: " ++ appid ++ ") - Played "
                                ++ mins ++ " mins in last 2 weeks")
               games lines.
Proof.
  intros Hk Nk Hi Ni Hg Hkeys.
  destruct (LibraryFacts.comprehension_ok Library.recent_line games)
    as (lines & Hl & HF).
  { eapply Forall_impl; [| exact Hkeys]. intros g H.
    destruct (LibraryFacts.recent_line_ok g H) as (n & a & m & _ & _ & _ & E).
    eauto. }
  exists lines. split.
  - unfold Library.get_recently_played_games, Library.reporting,
      Library.recent_body.
    rewrite (LibraryFacts.credentials_set w k i Hk Nk Hi Ni).
    unfold bind at 1, lift at 1. rewrite Hg.
    destruct games as [| g gs]; [reflexivity |].
    unfold bind, lift, ret. rewrite Hl. reflexivity.
  - clear - HF Hkeys. induction HF as [| g line gs ls Hgl HF' IH];
      constructor.
    + inversion Hkeys as [| ? ? Hkg _]; subst.
      destruct (LibraryFacts.recent_line_ok g Hkg)
        as (n & a & m & Hn & Ha & Hm & E).
      exists n, a, m. repeat split; auto. congruence.
    + apply IH. inversion Hkeys; assumption.
Qed.

Lemma recent_games_listed_witness :
  exists lines,
    Library.get_recently_played_games
      (SampleTools.account [SampleTools.portal]) []
    = (join nl (("Recently played games ("
                   ++ str_int (Z.of_nat (List.length [SampleTools.portal]))
                   ++ " found):") :: lines), [])
    /\ Forall2 (fun g line =>
                  exists name appid mins,
                    Library.subscript g "name" = Ok name
                    /\ Library.subscript g "appid" = Ok appid
                    /\ Library.subscript g "playtime_2weeks" = Ok mins
                    /\ line = name ++ " (AppID: " ++ appid ++ ") - Played "
                                ++ mins ++ " mins in last 2 weeks")
               [SampleTools.portal] lines.
Proof.
  apply (recent_games_listed (SampleTools.account [SampleTools.portal])
           "KEY" "7656" [SampleTools.portal] []).
  - reflexivity.
  - discriminate.
  - reflexivity.
  - discriminate.
  - reflexivity.
  - repeat constructor;
      intros key [<- | [<- | [<- | []]]]; eexists; reflexivity.
Defined.

(** ** The tool [get_game_achievements] *)

Module AchievementsFacts.

Lemma dict_get_absent {V : Type} (pairs : list (string * V)) (k : string)
  (default : V) :
  Forall (fun kv => fst kv <> k) pairs -> dict_get pairs k default = default.
Proof.
  unfold dict_get. intros H. revert default.
  induction H as [| kv rest Hkv Hrest IH]; intros default; simpl;
    [reflexivity |].
  apply String.eqb_neq in Hkv. rewrite Hkv. apply IH.
Qed.

Lemma dict_get_last {V : Type} (before after : list (string * V))
  (k : string) (v default : V) :
  Forall (fun kv => fst kv <> k) after ->
  dict_get (before ++ (k, v) :: after) k default = v.
Proof.
  intros H. unfold dict_get. rewrite fold_left_app. simpl.
  rewrite String.eqb_refl. apply (dict_get_absent after k v H).
Qed.

End AchievementsFacts.

(** X15. An achievement of the schema that the player's list and the global
    percentages do not mention is shown as not unlocked, with a global
    unlock rate of 0.00%. *)
Theorem unlisted_achievement_defaults
  (user : list Achievements.player_achievement)
  (global_data : list Achievements.global_achievement)
  (ach : Achievements.schema_achievement) (n : string) :
  Achievements.name ach = Some n ->
  Forall (fun a => Achievements.apiname a <> n) user ->
  Forall (fun a => Achievements.global_name a <> n) global_data ->
  Achievements.block (Achievements.unlocked_of user)
                     (Achievements.global_percent_of global_data) ach
  = (match Achievements.displayName ach with Some shown => shown | None => n end)
      ++ " | Unlocked: No | Global Unlock Rate: 0.00%" ++ nl
      ++ "Description: "
      ++ (match Achievements.description ach with
          | Some t => t
          | None => "No description"
          end).
Proof.
  intros Hn Hu Hg. unfold Achievements.block, Achievements.get_by.
  rewrite Hn.
  rewrite (AchievementsFacts.dict_get_absent
             (Achievements.unlocked_of user) n false).
  2:{ unfold Achievements.unlocked_of. apply Forall_map.
      eapply Forall_impl; [| exact Hu]. auto. }
  rewrite (AchievementsFacts.dict_get_absent
             (Achievements.global_percent_of global_data) n 0%Q).
  2:{ unfold Achievements.global_percent_of. apply Forall_map.
      eapply Forall_impl; [| exact Hg]. auto. }
  reflexivity.
Qed.

Lemma unlisted_achievement_defaults_witness :
  Achievements.block
    (Achievements.unlocked_of
       [ {| Achievements.apiname := "ACH_WIN"; Achievements.achieved := 1 |} ])
    (Achievements.global_percent_of
       [ {| Achievements.global_name := "ACH_WIN";
            Achievements.percent := (111 # 2)%Q |} ])
    {| Achievements.name := Some "ACH_SECRET";
       Achievements.displayName := None;
       Achievements.description := None |}
  = "ACH_SECRET" ++ " | Unlocked: No | Global Unlock Rate: 0.00%" ++ nl
      ++ "Description: " ++ "No description".
Proof.
  apply (unlisted_achievement_defaults
           [ {| Achievements.apiname := "ACH_WIN";
                Achievements.achieved := 1 |} ]
           [ {| Achievements.global_name := "ACH_WIN";
                Achievements.percent := (111 # 2)%Q |} ]
           {| Achievements.name := Some "ACH_SECRET";
              Achievements.displayName := None;
              Achievements.description := None |} "ACH_SECRET").
  - reflexivity.
  - repeat constructor; discriminate.
  - repeat constructor; discriminate.
Defined.

(** X16. When the player's list reports an achievement more than once, the
    last report decides: the achievement is shown as unlocked exactly when
    the last entry with its apiname has [achieved] equal to 1. *)
Theorem last_report_decides
  (before after : list Achievements.player_achievement)
  (a : Achievements.player_achievement)
  (global_percent : list (string * Q))
  (ach : Achievements.schema_achievement) :
  Achievements.name ach = Some (Achievements.apiname a) ->
  Forall (fun b => Achievements.apiname b <> Achievements.apiname a) after ->
  Achievements.block
    (Achievements.unlocked_of (before ++ a :: after)) global_percent ach
  = (match Achievements.displayName ach with
     | Some shown => shown
     | None => Achievements.apiname a
     end)
      ++ " | Unlocked: "
      ++ (if Achievements.achieved a =? 1 then "Yes" else "No")
      ++ " | Global Unlock Rate: "
      ++ fmt2 (dict_get global_percent (Achievements.apiname a) 0%Q)
      ++ "%" ++ nl ++ "Description: "
      ++ (match Achievements.description ach with
          | Some t => t
          | None => "No description"
          end).
Proof.
  intros Hn Ha. unfold Achievements.block, Achievements.get_by.
  rewrite Hn. unfold Achievements.unlocked_of.
  rewrite map_app. cbn [map].
  rewrite AchievementsFacts.dict_get_last; [reflexivity |].
  apply Forall_map. eapply Forall_impl; [| exact Ha]. auto.
Qed.

Lemma last_report_decides_witness :
  Achievements.block
    (Achievements.unlocked_of
       ([ {| Achievements.apiname := "ACH_WIN"; Achievements.achieved := 1 |} ]
          ++ {| Achievements.apiname := "ACH_WIN"; Achievements.achieved := 0 |}
          :: [ {| Achievements.apiname := "ACH_LOSE";
                  Achievements.achieved := 1 |} ]))
    [("ACH_WIN", (111 # 2)%Q)]
    {| Achievements.name := Some "ACH_WIN";
       Achievements.displayName := Some "Winner";
       Achievements.description := Some "Win a game" |}
  = "Winner" ++ " | Unlocked: " ++ "No" ++ " | Global Unlock Rate: "
      ++ fmt2 (dict_get [("ACH_WIN", (111 # 2)%Q)] "ACH_WIN" 0%Q)
      ++ "%" ++ nl ++ "Description: " ++ "Win a game".
Proof.
  apply (last_report_decides
           [ {| Achievements.apiname := "ACH_WIN";
                Achievements.achieved := 1 |} ]
           [ {| Achievements.apiname := "ACH_LOSE";
                Achievements.achieved := 1 |} ]
           {| Achievements.apiname := "ACH_WIN"; Achievements.achieved := 0 |}
           [("ACH_WIN", (111 # 2)%Q)]
           {| Achievements.name := Some "ACH_WIN";
              Achievements.displayName := Some "Winner";
              Achievements.description := Some "Win a game" |}).
  - reflexivity.
  - repeat constructor; discriminate.
Defined.

Module AchievementsOrder.

Import AchievementsFacts.

Lemma dict_get_in {V : Type} (pairs : list (string * V)) (k : string)
  (v default : V) :
  NoDup (map fst pairs) -> In (k, v) pairs -> dict_get pairs k default = v.
Proof.
  intros Hnd Hin. apply in_split in Hin. destruct Hin as (l1 & l2 & ->).
  apply dict_get_last.
  rewrite map_app in Hnd. cbn [map fst] in Hnd.
  apply NoDup_remove_2 in Hnd.
  apply Forall_forall. intros kv Hkv E. apply Hnd.
  apply in_or_app. right. rewrite <- E. apply in_map. exact Hkv.
Qed.

Lemma dict_get_perm {V : Type} (pairs pairs' : list (string * V))
  (k : string) (default : V) :
  Permutation pairs pairs' -> NoDup (map fst pairs) ->
  dict_get pairs k default = dict_get pairs' k default.
Proof.
  intros Hp Hnd.
  assert (Hnd' : NoDup (map fst pairs'))
    by (eapply Permutation_NoDup; [apply Permutation_map; exact Hp | exact Hnd]).
  destruct (in_dec string_dec k (map fst pairs)) as [Hin | Hout].
  - apply in_map_iff in Hin. destruct Hin as [[k' v] [E Hin]].
    simpl in E. subst k'.
    rewrite (dict_get_in pairs k v default Hnd Hin).
    symmetry. apply dict_get_in; [exact Hnd' |].
    eapply Permutation_in; eassumption.
  - rewrite !dict_get_absent; [reflexivity | |].
    + apply Forall_forall. intros kv Hkv E. apply Hout.
      rewrite <- E. apply in_map.
      eapply Permutation_in; [apply Permutation_sym; exact Hp | exact Hkv].
    + apply Forall_forall. intros kv Hkv E. apply Hout.
      rewrite <- E. apply in_map. exact Hkv.
Qed.

(** Entries that have both keys are read as they are. *)
Lemma read_all (user : list Achievements.player_achievement) :
  comprehension Achievements.read_player
                (map Achievements.player_entry_of user) = Ok user.
Proof.
  induction user as [| a rest IH]; [reflexivity |].
  cbn [map comprehension]. rewrite IH. destruct a. reflexivity.
Qed.

End AchievementsOrder.

(** X18. When every entry of the player's list has both keys and no
    apiname is reported twice, the answer of [get_game_achievements] does
    not depend on the order in which the player's achievements are
    reported: the blocks follow the schema, and each looks its achievement
    up by name. *)
Theorem report_order_irrelevant (w w' : Achievements.world) (app_id : Z)
  (user user' : list Achievements.player_achievement) :
  Achievements.API_KEY w' = Achievements.API_KEY w ->
  Achievements.STEAM_ID w' = Achievements.STEAM_ID w ->
  Achievements.GetSchemaForGame w' app_id
  = Achievements.GetSchemaForGame w app_id ->
  Achievements.GetGlobalAchievementPercentagesForApp w' app_id
  = Achievements.GetGlobalAchievementPercentagesForApp w app_id ->
  Achievements.GetPlayerAchievements w app_id
  = Achievements.Got (map Achievements.player_entry_of user) ->
  Achievements.GetPlayerAchievements w' app_id
  = Achievements.Got (map Achievements.player_entry_of user') ->
  Permutation user user' ->
  NoDup (map Achievements.apiname user) ->
  Achievements.get_game_achievements w' app_id
  = Achievements.get_game_achievements w app_id.
Proof.
  intros Hk Hi Hs Hg Hu Hu' Hp Hnd.
  unfold Achievements.get_game_achievements.
  rewrite Hk, Hi, Hs, Hg, Hu, Hu'.
  destruct (unset (Achievements.API_KEY w) || unset (Achievements.STEAM_ID w));
    [reflexivity |].
  destruct user as [| a u].
  { apply Permutation_nil in Hp. subst user'. reflexivity. }
  destruct user' as [| a' u'].
  { apply Permutation_sym, Permutation_nil in Hp. discriminate. }
  rewrite !AchievementsOrder.read_all.
  cbn [map].
  destruct (Achievements.GetSchemaForGame w app_id) as [[| s schema] |];
    try reflexivity.
  destruct (Achievements.GetGlobalAchievementPercentagesForApp w app_id)
    as [global_data |]; [| reflexivity].
  destruct (comprehension Achievements.read_global global_data)
    as [percents | e]; [| reflexivity].
  assert (E : map (Achievements.block
                     (Achievements.unlocked_of (a' :: u'))
                     (Achievements.global_percent_of percents))
                  (s :: schema)
              = map (Achievements.block
                       (Achievements.unlocked_of (a :: u))
                       (Achievements.global_percent_of percents))
                    (s :: schema));
    [| rewrite E; reflexivity].
  apply map_ext. intros ach.
  unfold Achievements.block, Achievements.get_by.
  destruct (Achievements.name ach) as [n |]; [| reflexivity].
  rewrite (AchievementsOrder.dict_get_perm
             (Achievements.unlocked_of (a :: u))
             (Achievements.unlocked_of (a' :: u')) n false); [reflexivity | |].
  - unfold Achievements.unlocked_of. apply Permutation_map. exact Hp.
  - unfold Achievements.unlocked_of. rewrite map_map. exact Hnd.
Qed.

Lemma report_order_irrelevant_witness :
  Achievements.get_game_achievements
    (SampleTools.stats [SampleTools.not_lost; SampleTools.won]) 730
  = Achievements.get_game_achievements
      (SampleTools.stats [SampleTools.won; SampleTools.not_lost]) 730.
Proof.
  apply (report_order_irrelevant
           (SampleTools.stats [SampleTools.won; SampleTools.not_lost])
           (SampleTools.stats [SampleTools.not_lost; SampleTools.won]) 730
           [SampleTools.won; SampleTools.not_lost]
           [SampleTools.not_lost; SampleTools.won]).
  - reflexivity.
  - reflexivity.
  - reflexivity.
  - reflexivity.
  - reflexivity.
  - reflexivity.
  - apply perm_swap.
  - repeat constructor; simpl; intuition discriminate.
Defined.

(** ** The two versions of [fetch_steam_guide] *)

(** X17. On a guide whose boxes all have a title and whose full text has at
    most 20000 characters, the [fetch_steam_guide] of
    [steam_mcp_server/server.py] returns, for every query, what the
    [fetch_steam_guide] of the earlier [server.py] returns. *)
Theorem versions_agree_on_short_titled_guides (w : Guide.world)
  (guide_id query : string) (boxes : list Guide.box) (tr : trace) :
  Guide.get_guide w guide_id = Ok (Some boxes) ->
  Forall (fun b => Guide.title b <> None) boxes ->
  len (Guide.full_text (Guide.extract_sections boxes)) <= 20000 ->
  Guide.fetch_steam_guide w guide_id query tr
  = Legacy.fetch_steam_guide w guide_id tr.
Proof.
  intros Hg Ht Hlen.
  rewrite (fetch_steam_guide_retrieve w guide_id query boxes tr Hg).
  unfold Guide.retrieve, Legacy.fetch_steam_guide, Guide.except_Exception,
    Guide.guide_text, Legacy.try_body, Guide.threshold_chars.
  apply Z.leb_le in Hlen. rewrite Hlen.
  unfold bind, lift, ret. rewrite Hg.
  unfold Guide.full_text, Guide.extract_sections.
  do 2 f_equal. apply map_ext_Forall.
  eapply Forall_impl; [| exact Ht].
  intros b Hb. cbv beta in Hb.
  unfold Guide.section_text, Legacy.section_text.
  destruct (Guide.title b) as [t |]; [| congruence].
  clear. induction t as [| c t IH]; simpl; [reflexivity | rewrite IH; reflexivity].
Qed.

Lemma versions_agree_on_short_titled_guides_witness :
  Guide.fetch_steam_guide SampleTools.titled_world "77" "boss" []
  = Legacy.fetch_steam_guide SampleTools.titled_world "77" [].
Proof.
  apply (versions_agree_on_short_titled_guides SampleTools.titled_world
           "77" "boss" SampleTools.titled []).
  - reflexivity.
  - repeat constructor; discriminate.
  - vm_compute. discriminate.
Defined.

(** ** Two calls in one process *)

Module ProcessFacts.

Import Process.

Lemma nth_error_fresh {A : Type} (objects : list A) (x : A) :
  nth_error (objects ++ [x]) (List.length objects) = Some x.
Proof.
  rewrite nth_error_app2 by lia. rewrite Nat.sub_diag. reflexivity.
Qed.

Lemma store_fresh (objects : list Faiss.IndexFlatL2)
  (x y : Faiss.IndexFlatL2) :
  store (List.length objects) y (objects ++ [x]) = (objects ++ [y])%list.
Proof.
  induction objects as [| o rest IH]; simpl; [reflexivity |].
  rewrite IH. reflexivity.
Qed.

(** The answer of the search, by the two results of the model: the index
    that is searched is the one the call has allocated and filled, whatever
    objects were allocated before. *)
Lemma search_sections_answer {S : Type} (h : host S)
  (sections : list string) (query : string) (p : process S) :
  fst (search_sections h sections query p)
  = match fst (model_encode h (model p) sections) with
    | Raised e => Raised e
    | Ok embeddings =>
        match Guide.shape1 embeddings with
        | Raised e => Raised e
        | Ok dim =>
            match fst (model_encode h
                         (snd (model_encode h (model p) sections)) [query])
            with
            | Raised e => Raised e
            | Ok q =>
                match getitem q 0 with
                | Raised e => Raised e
                | Ok q_emb =>
                    match collect sections
                            (Faiss.search
                               (Faiss.add (Faiss.new dim) embeddings)
                               q_emb Guide.top_k)
                    with
                    | Raised e => Raised e
                    | Ok results => Ok (join Guide.delimiter results)
                    end
                end
            end
        end
    end.
Proof.
  unfold search_sections, then_, encode, of_outcome, IndexFlatL2, add,
    search, unit_.
  cbn [model indexes stderr fst snd].
  destruct (model_encode h (model p) sections) as [[embeddings | e] s1];
    cbn [fst snd]; [| reflexivity].
  destruct (Guide.shape1 embeddings) as [dim | e]; [| reflexivity].
  rewrite nth_error_fresh. cbn [model indexes stderr fst snd].
  destruct (model_encode h s1 [query]) as [[q | e] s2];
    cbn [fst snd]; [| reflexivity].
  destruct (getitem q 0) as [q_emb | e]; [| reflexivity].
  rewrite store_fresh, nth_error_fresh.
  destruct (collect sections _) as [results | e]; reflexivity.
Qed.

Lemma except_Exception_answer {S : Type} (m : P S string) (p : process S) :
  fst (except_Exception m p)
  = match fst (m p) with
    | Ok s => s
    | Raised e => "Error fetching guide: " ++ e
    end.
Proof.
  unfold except_Exception. destruct (m p) as [[s | e] p']; reflexivity.
Qed.

Lemma retrieve_answer_independent {S : Type} (h : host S)
  (document : list Guide.box) (query : string) :
  deterministic h ->
  forall p p' : process S,
    fst (retrieve h document query p) = fst (retrieve h document query p').
Proof.
  intros Hdet p p'. unfold retrieve. rewrite !except_Exception_answer.
  unfold guide_text.
  destruct (len (Guide.full_text (Guide.extract_sections document))
            <=? Guide.threshold_chars); [reflexivity |].
  destruct (negb (faiss_imported h)); [reflexivity |].
  rewrite !search_sections_answer.
  rewrite (Hdet (model p) (model p')).
  rewrite (Hdet (snd (model_encode h (model p)
                        (Guide.extract_sections document)))
                (snd (model_encode h (model p')
                        (Guide.extract_sections document)))).
  reflexivity.
Qed.

Lemma collect_same (sections : list string) (hits : list Faiss.hit)
  (tr : trace) :
  Guide.collect sections hits tr = (collect sections hits, tr).
Proof.
  unfold Guide.collect, collect.
  induction hits as [| x rest IH]; [reflexivity |].
  cbn [for_each Text.comprehension]. unfold bind, lift, ret in *.
  destruct (getitem sections (snd x)) as [s | e]; [| reflexivity].
  cbn [Text.and_then]. rewrite IH.
  match goal with
  | |- context [Text.comprehension ?f rest] =>
      destruct (Text.comprehension f rest); reflexivity
  end.
Qed.

(** The answer in the process is the answer of [Guide.retrieve] in the
    world whose [encode] gives what the model gives. *)
Lemma process_retrieve_agrees {S : Type} (h : host S) (w : Guide.world)
  (document : list Guide.box) (query : string) (p : process S)
  (tr : trace) :
  faiss_imported h = Guide.faiss w ->
  (forall s texts,
     fst (model_encode h s texts)
     = match Guide.encode_error w texts with
       | Some e => Raised e
       | None => Ok (map (Guide.embed w) texts)
       end) ->
  fst (retrieve h document query p)
  = fst (Guide.retrieve w document query tr).
Proof.
  intros Hf He. unfold retrieve, Guide.retrieve.
  rewrite except_Exception_answer.
  assert (X : forall m : M string,
             fst (Guide.except_Exception m tr)
             = match fst (m tr) with
               | Ok s => s
               | Raised e => "Error fetching guide: " ++ e
               end).
  { intros m. unfold Guide.except_Exception.
    destruct (m tr) as [[s | e] t]; reflexivity. }
  rewrite X. unfold guide_text, Guide.guide_text. rewrite Hf.
  set (sections := Guide.extract_sections document).
  destruct (Z.leb_spec (len (Guide.full_text sections))
                       Guide.threshold_chars) as [Hshort | Hlong];
    [reflexivity |].
  destruct (negb (Guide.faiss w)); [reflexivity |].
  rewrite search_sections_answer, !He.
  pose proof (GuideFacts.long_nonempty sections Hlong) as Hne.
  destruct (Guide.encode_error w sections) as [e |] eqn:Es.
  { destruct (GuideFacts.search_sections_raises w sections query e tr Hne)
      as [tr' ->]; [left; exact Es | reflexivity]. }
  destruct (Guide.encode_error w [query]) as [e |] eqn:Eq.
  { destruct (GuideFacts.search_sections_raises w sections query e tr Hne)
      as [tr' ->]; [right; split; assumption |].
    destruct sections; [congruence | reflexivity]. }
  destruct (GuideFacts.ranked_ok w sections query tr Hne Es Eq) as [tr' Hr].
  unfold Guide.search_sections.
  rewrite (GuideFacts.bind_ok _ _ _ _ _ Hr).
  unfold bind at 1. rewrite collect_same.
  destruct sections as [| s0 rest]; [congruence |].
  cbn [map Guide.shape1 getitem List.length Z.of_nat nth_error Z.to_nat
       Z.ltb Z.leb Z.compare andb hd].
  unfold Guide.built. cbn [hd map].
  destruct (collect (s0 :: rest) _) as [rs | e]; reflexivity.
Qed.

End ProcessFacts.

(** C6. Given a model that returns the same vectors for the same texts
    whatever the state of the model object, a call made in a process that an
    earlier call with the same document and query has left behind returns
    the answer of that earlier call: the model object may have changed
    state, index objects of earlier calls may still be allocated and stderr
    may hold lines, but the call searches the index it has allocated and
    filled itself.  More generally the answer is the same from any two
    states of the process. *)
Theorem second_call_same_answer (S : Type) (h : Process.host S)
  (document : list Guide.box) (query : string) (p : Process.process S) :
  Process.deterministic h ->
  fst (Process.retrieve h document query
         (snd (Process.retrieve h document query p)))
  = fst (Process.retrieve h document query p)
  /\ forall p' : Process.process S,
       fst (Process.retrieve h document query p')
       = fst (Process.retrieve h document query p).
Proof.
  intros Hdet. split; [| intros p'];
    apply ProcessFacts.retrieve_answer_independent; exact Hdet.
Qed.

Lemma second_call_same_answer_witness :
  fst (Process.retrieve SampleTools.counting Sample.six_long "boss"
         (snd (Process.retrieve SampleTools.counting Sample.six_long "boss"
                 SampleTools.running)))
  = fst (Process.retrieve SampleTools.counting Sample.six_long "boss"
           SampleTools.running)
  /\ forall p' : Process.process nat,
       fst (Process.retrieve SampleTools.counting Sample.six_long "boss" p')
       = fst (Process.retrieve SampleTools.counting Sample.six_long "boss"
                SampleTools.running).
Proof.
  apply (second_call_same_answer nat SampleTools.counting Sample.six_long
           "boss" SampleTools.running).
  intros s s' texts. reflexivity.
Defined.

(** ** The answer of a search over five sections or more *)

Module AnswerFacts.

Lemma square_nonneg (x : Q) : (0 <= x * x)%Q.
Proof.
  destruct (Qlt_le_dec x 0) as [L | G].
  - assert (E : (x * x == (- x) * (- x))%Q) by ring.
    rewrite E. apply Qmult_le_0_compat; lra.
  - apply Qmult_le_0_compat; assumption.
Qed.

Lemma fvec_L2sqr_nonneg (x y : vec) : (0 <= Faiss.fvec_L2sqr x y)%Q.
Proof.
  unfold Faiss.fvec_L2sqr.
  assert (G : forall l acc, (0 <= acc)%Q ->
              (0 <= fold_left
                      (fun acc ab => (acc + (fst ab - snd ab)
                                            * (fst ab - snd ab))%Q) l acc)%Q).
  { induction l as [| ab l IH]; intros acc Hacc; simpl; [exact Hacc |].
    apply IH. pose proof (square_nonneg (fst ab - snd ab)). lra. }
  apply G. lra.
Qed.

Lemma digit_value_digit (k : Z) : 0 <= k < 10 -> digit_value (digit k) = k.
Proof.
  intros H.
  assert (C : k = 0 \/ k = 1 \/ k = 2 \/ k = 3 \/ k = 4 \/ k = 5 \/ k = 6
              \/ k = 7 \/ k = 8 \/ k = 9) by lia.
  repeat destruct C as [C | C]; subst k; reflexivity.
Qed.

Lemma decimal_read (z : Z) :
  0 <= z ->
  NilZero.uint_of_string (decimal z) = Some (N.to_uint (Z.to_N z))
  /\ Z.of_N (N.of_uint (N.to_uint (Z.to_N z))) = z.
Proof.
  intros Hz. split.
  - unfold decimal. apply NilZero.usu.
    destruct (Z.to_N z); [discriminate |].
    apply DecimalPos.Unsigned.to_uint_nonnil.
  - rewrite DecimalN.Unsigned.of_to. apply Z2N.id. exact Hz.
Qed.

Lemma hundredths_nonneg (d : Q) : 0 <= hundredths d.
Proof.
  destruct (hundredths_nearest d) as [_ U].
  pose proof (Qabs_nonneg d) as A.
  destruct (Z.lt_ge_cases (hundredths d) 0) as [L | G]; [| exact G].
  exfalso. assert (hundredths d <= -1) as L' by lia.
  rewrite Zle_Qle in L'. change (inject_Z (-1)) with (-1 # 1)%Q in L'. lra.
Qed.

(** What line 296 writes for a distance that is not negative. *)
Lemma entry_scored (d : Q) (s : string) :
  (0 <= d)%Q -> scored_entry d s (Guide.entry d s).
Proof.
  intros Hd. unfold scored_entry, Guide.entry, fmt2.
  pose proof (hundredths_nonneg d) as Hc.
  set (c := hundredths d) in *.
  assert (Hq : 0 <= c / 100) by (apply Z.div_pos; lia).
  destruct (decimal_read (c / 100) Hq) as [Hread Hval].
  exists (decimal (c / 100)), (N.to_uint (Z.to_N (c / 100))),
         (digit ((c / 10) mod 10)), (digit (c mod 10)).
  assert (Hsign : match Qcompare d 0 with Lt => "-" | _ => "" end = "").
  { destruct (Qcompare_spec d 0); [reflexivity | lra | reflexivity]. }
  rewrite Hsign. cbn [append].
  assert (Hsum : 100 * Z.of_N (N.of_uint (N.to_uint (Z.to_N (c / 100))))
                 + 10 * digit_value (digit ((c / 10) mod 10))
                 + digit_value (digit (c mod 10)) = c).
  { rewrite Hval, !digit_value_digit by (apply Z.mod_pos_bound; lia).
    pose proof (Z.div_mod c 10). pose proof (Z.div_mod (c / 10) 10).
    assert (c / 10 / 10 = c / 100) by (rewrite Z.div_div; [reflexivity | lia | lia]).
    lia. }
  rewrite Hsum.
  destruct (hundredths_nearest d) as [L U]. fold c in L, U.
  pose proof (Qabs_pos d Hd) as Ha.
  repeat split.
  - exact Hread.
  - apply digit_is_digit, Z.mod_pos_bound; lia.
  - apply digit_is_digit, Z.mod_pos_bound; lia.
  - rewrite <- Ha. exact L.
  - rewrite <- Ha. exact U.
Qed.

Lemma candidates_dist (q : vec) (ys : list vec) (j0 : Z) (x : Faiss.hit) :
  In x (Faiss.candidates j0 q ys) ->
  exists y, nth_error ys (Z.to_nat (snd x - j0)) = Some y
            /\ fst x = Faiss.fvec_L2sqr q y.
Proof.
  revert j0. induction ys as [| y r IH]; intros j0; [simpl; tauto |].
  assert (R : In x (Faiss.candidates (j0 + 1) q r) ->
              exists y', nth_error (y :: r) (Z.to_nat (snd x - j0)) = Some y'
                         /\ fst x = Faiss.fvec_L2sqr q y').
  { intros H. pose proof (FaissFacts.candidates_spec _ _ _ _ H) as [B _].
    destruct (IH _ H) as [y' [Hn Hf]]. exists y'. split; [| exact Hf].
    replace (Z.to_nat (snd x - j0)) with (Datatypes.S (Z.to_nat (snd x - (j0 + 1))))
      by lia.
    exact Hn. }
  cbn [Faiss.candidates].
  destruct (Qcompare (Faiss.fvec_L2sqr q y) Faiss.FLT_MAX); auto.
  intros [<- | H]; [| auto].
  exists y. simpl. rewrite Z.sub_diag. split; reflexivity.
Qed.

Lemma StronglySorted_map {A B : Type} (R : A -> A -> Prop)
  (T : B -> B -> Prop) (f : A -> B) (l : list A) :
  (forall a b, In a l -> In b l -> R a b -> T (f a) (f b)) ->
  StronglySorted R l -> StronglySorted T (map f l).
Proof.
  intros H S. induction S as [| a l Hl IH Ha]; simpl; constructor.
  - apply IH. intros; apply H; simpl; auto.
  - apply Forall_forall. intros y Hy. apply in_map_iff in Hy.
    destruct Hy as [b [<- Hb]]. rewrite Forall_forall in Ha.
    apply H; simpl; auto.
Qed.

Lemma Forall2_map_l_In {A B C : Type} (P : A -> C -> Prop)
  (T : B -> C -> Prop) (f : A -> B) (l : list A) (rs : list C) :
  (forall a r, In a l -> P a r -> T (f a) r) ->
  Forall2 P l rs -> Forall2 T (map f l) rs.
Proof.
  intros H F. induction F as [| a r l rs Har F' IH]; simpl; constructor.
  - apply H; simpl; auto.
  - apply IH. intros; apply H; simpl; auto.
Qed.

End AnswerFacts.

(** X19. With at least five sections, all at a distance below [FLT_MAX]
    from the query, the answer of a search is five entries joined by a blank
    line, three dashes and a blank line.  The entries are for five different
    sections of the document, in the order of their distances to the query,
    nearest first; each is the line [[Score: n.ab]], where the hundredths
    [n.ab] are nearest to the distance of its section, a newline, and the
    text of that section. *)
Theorem five_sections_answer (w : Guide.world) (document : list Guide.box)
  (query : string) (tr : trace) :
  Guide.threshold_chars
  < len (Guide.full_text (Guide.extract_sections document)) ->
  Guide.faiss w = true ->
  Guide.encode_error w (Guide.extract_sections document) = None ->
  Guide.encode_error w [query] = None ->
  (5 <= List.length document)%nat ->
  Forall (fun s => (Faiss.fvec_L2sqr (Guide.embed w query) (Guide.embed w s)
                    < Faiss.FLT_MAX)%Q) (Guide.extract_sections document) ->
  exists (js : list nat) (rs : list string),
    fst (Guide.retrieve w document query tr)
    = join (nl ++ nl ++ "---" ++ nl ++ nl) rs
    /\ List.length js = 5%nat /\ NoDup js
    /\ Forall2 (fun j r =>
                  exists s,
                    nth_error (map Guide.section_text document) j = Some s
                    /\ scored_entry
                         (Faiss.fvec_L2sqr (Guide.embed w query)
                                           (Guide.embed w s)) s r) js rs
    /\ StronglySorted
         (fun i j =>
            forall s t,
              nth_error (map Guide.section_text document) i = Some s ->
              nth_error (map Guide.section_text document) j = Some t ->
              (Faiss.fvec_L2sqr (Guide.embed w query) (Guide.embed w s)
               <= Faiss.fvec_L2sqr (Guide.embed w query) (Guide.embed w t))%Q)
         js.
Proof.
  intros Hlong Hf Hs Hq Hn Hall.
  destruct (GuideFacts.search_mode w document query tr Hlong Hf Hs Hq)
    as (hits & rs & tr' & Hh & Hr & Hres & Hret & HF).
  change (map Guide.section_text document)
    with (Guide.extract_sections document).
  set (sections := Guide.extract_sections document) in *.
  set (index := Guide.built w sections) in *.
  set (dist := fun s => Faiss.fvec_L2sqr (Guide.embed w query)
                                         (Guide.embed w s)).
  assert (Hlen : List.length sections = List.length document)
    by (unfold sections, Guide.extract_sections; apply length_map).
  destruct (FaissSelection.search_full index (Guide.embed w query) Guide.top_k)
    as (Hfull & Hk & Hnd).
  { unfold index. rewrite GuideFacts.ntotal_built, Hlen. exact Hn. }
  { unfold index, Guide.built. simpl. apply Forall_forall. intros y Hy.
    apply in_map_iff in Hy. destruct Hy as [s [<- Hin]].
    rewrite Forall_forall in Hall. apply Hall, Hin. }
  (* every slot holds the distance of the section at its label *)
  assert (Good : forall h, In h hits ->
                   0 <= snd h
                   /\ exists s, nth_error sections (Z.to_nat (snd h)) = Some s
                                /\ fst h = dist s).
  { intros h Hin. rewrite Hh, Hfull in Hin.
    pose proof (FaissFacts.knn_spec _ _ _ _ Hin) as [B _].
    split; [lia |].
    unfold Faiss.knn in Hin.
    assert (Hc : In h (Faiss.sort (Faiss.candidates 0 (Guide.embed w query)
                                                    (Faiss.xb index)))).
    { rewrite <- (firstn_skipn Guide.top_k (Faiss.sort _)).
      apply in_or_app. left. exact Hin. }
    apply FaissFacts.In_sort, AnswerFacts.candidates_dist in Hc.
    destruct Hc as [y [Hy Hd]]. rewrite Z.sub_0_r in Hy.
    unfold index, Guide.built in Hy. simpl in Hy.
    rewrite nth_error_map in Hy.
    destruct (nth_error sections (Z.to_nat (snd h))) as [s |] eqn:E;
      [| discriminate].
    exists s. split; [reflexivity |]. simpl in Hy. inversion Hy; subst y.
    exact Hd. }
  exists (map (fun h => Z.to_nat (snd h)) hits), rs.
  rewrite Hret. split; [reflexivity |].
  split; [rewrite length_map, Hh; apply FaissFacts.search_length |].
  split; [| split].
  - rewrite <- (map_map snd Z.to_nat).
    apply NoDup_map_NoDup_ForallPairs; [| rewrite Hh, Hfull; exact Hnd].
    intros x y Hx Hy E.
    apply in_map_iff in Hx. destruct Hx as [hx [<- Hx]].
    apply in_map_iff in Hy. destruct Hy as [hy [<- Hy]].
    apply Z2Nat.inj; [apply Good | apply Good |]; assumption.
  - apply AnswerFacts.Forall2_map_l_In
      with (P := fun h r =>
                   exists s, getitem sections (snd h) = Ok s
                             /\ r = Guide.entry (fst h) s); [| exact HF].
    intros h r Hin [s [Hg ->]].
    destruct (Good h Hin) as [Hpos [s' [Hs' Hd]]].
    apply getitem_nonneg in Hg; [| exact Hpos].
    assert (s' = s) by congruence. subst s'.
    exists s. split; [exact Hg |]. rewrite Hd.
    apply AnswerFacts.entry_scored, AnswerFacts.fvec_L2sqr_nonneg.
  - apply AnswerFacts.StronglySorted_map
      with (R := precedes);
      [| rewrite Hh; apply FaissFacts.search_precedes].
    intros a b Ha Hb [Hab _] s t Hns Hnt.
    destruct (Good a Ha) as [_ [s' [Hs' Hda]]].
    destruct (Good b Hb) as [_ [t' [Ht' Hdb]]].
    assert (s' = s) by congruence. assert (t' = t) by congruence.
    subst s' t'. fold (dist s). fold (dist t).
    rewrite <- Hda, <- Hdb. exact Hab.
Qed.

Lemma five_sections_answer_witness :
  exists (js : list nat) (rs : list string),
    fst (Guide.retrieve Sample.installed Sample.six_long "boss" [])
    = join (nl ++ nl ++ "---" ++ nl ++ nl) rs
    /\ List.length js = 5%nat /\ NoDup js
    /\ Forall2 (fun j r =>
                  exists s,
                    nth_error (map Guide.section_text Sample.six_long) j
                    = Some s
                    /\ scored_entry
                         (Faiss.fvec_L2sqr
                            (Guide.embed Sample.installed "boss")
                            (Guide.embed Sample.installed s)) s r) js rs
    /\ StronglySorted
         (fun i j =>
            forall s t,
              nth_error (map Guide.section_text Sample.six_long) i = Some s ->
              nth_error (map Guide.section_text Sample.six_long) j = Some t ->
              (Faiss.fvec_L2sqr (Guide.embed Sample.installed "boss")
                                (Guide.embed Sample.installed s)
               <= Faiss.fvec_L2sqr (Guide.embed Sample.installed "boss")
                                   (Guide.embed Sample.installed t))%Q)
         js.
Proof.
  apply (five_sections_answer Sample.installed Sample.six_long "boss" []).
  - vm_compute. reflexivity.
  - reflexivity.
  - reflexivity.
  - reflexivity.
  - vm_compute. repeat constructor.
  - repeat constructor; vm_compute; reflexivity.
Defined.


